(** * Voxell DLC API: the authentication backend

    A shallow embedding of [src/main.py] (the FastAPI handlers
    [register], [login] and [me] with their helpers) and of the
    collection schema of [src/schemas.py], followed by the properties
    the specification states about them.

    The handlers delegate to third-party libraries.  Their documented
    behaviour is modelled here; the cryptographic primitives themselves
    stay abstract, as the fields of the class [Platform]:
    - python-jose 3: [jwt.encode] / [jwt.decode] with the default
      options, around an abstract JWS signature ([jws_sign],
      [jws_verify]);
    - passlib 1.7: [CryptContext(schemes=["bcrypt"])] around an abstract
      Blowfish key derivation ([bcrypt_digest]);
    - pymongo: the [playeruser] collection as the list of its documents;
    - pydantic 2: the field validation of [ProfileResponse] (a number is
      not coerced to a string), with the e-mail validator abstract
      ([validate_email]).

    Conventions: a Python [str] is the Rocq [string] of its UTF-8
    encoding; where the code counts or slices characters ([len],
    [s[:n]], pydantic's [min_length]) the model counts code points
    ([utf8_length], [utf8_take]), where a library works on the encoded
    bytes (bcrypt's 72 bytes, the ASCII format of a hash) it counts
    bytes; a [datetime] is its number of microseconds
    since the epoch; a [dict] is a [gmap string value]. *)

From Stdlib Require Import ZArith String Ascii List Bool Lia.
From stdpp Require Import gmap strings list fin_maps.

Local Open Scope string_scope.
Local Open Scope Z_scope.

(** ** Python values *)

(** The values that occur in the documents and in the claim sets. *)
#[local] Set Warnings "-register-all".
Inductive value : Type :=
| VNone
| VBool (b : bool)
| VInt (z : Z)
| VStr (s : string)
| VDatetime (us : Z)
| VObjectId (hex : string)
| VList (l : list value).

(** Python truthiness, as [if x:] and [not x] read it. *)
Definition truthy (v : value) : bool :=
  match v with
  | VNone => false
  | VBool b => b
  | VInt z => negb (z =? 0)
  | VStr s => negb (String.eqb s "")
  | VDatetime _ => true
  | VObjectId _ => true
  | VList l => match l with [] => false | _ => true end
  end.

Definition is_str (v : value) : bool :=
  match v with VStr _ => true | _ => false end.

(** [json.dumps] accepts [None], booleans, integers, strings and lists
    of such; a [datetime] or an [ObjectId] is a [TypeError]. *)
Fixpoint json_serializable (v : value) : bool :=
  match v with
  | VNone | VBool _ | VInt _ | VStr _ => true
  | VDatetime _ | VObjectId _ => false
  | VList l => forallb json_serializable l
  end.

(** Equality of values, as a query compares a field with a value. *)
Fixpoint value_eqb (x y : value) : bool :=
  match x, y with
  | VNone, VNone => true
  | VBool a, VBool b => Bool.eqb a b
  | VInt a, VInt b => (a =? b)
  | VStr a, VStr b => String.eqb a b
  | VDatetime a, VDatetime b => (a =? b)
  | VObjectId a, VObjectId b => String.eqb a b
  | VList a, VList b =>
      (fix go (a b : list value) : bool :=
         match a, b with
         | [], [] => true
         | x :: a', y :: b' => value_eqb x y && go a' b'
         | _, _ => false
         end) a b
  | _, _ => false
  end.

(** A Python [dict] with string keys. *)
Abbreviation dict := (gmap string value).

(** [d.get(k)] and [d.get(k, dflt)]. *)
Definition dict_get (d : dict) (k : string) : value := default VNone (d !! k).
Definition dict_get_default (d : dict) (k : string) (dflt : value) : value :=
  default dflt (d !! k).

(** A [dict] is falsy exactly when it is empty. *)
Definition dict_truthy (d : dict) : bool := negb (bool_decide (d = ∅)).

(** ** Exceptions and results *)

Inductive exception : Type :=
| HTTPException (status_code : Z) (detail : string)
  (** [jose.JWTError] and its subclasses [ExpiredSignatureError] and
      [JWTClaimsError]. *)
| JWTError (why : string)
  (** [ValueError] and passlib's subclasses of it ([UnknownHashError],
      [MalformedHashError], [PasswordValueError], ...). *)
| ValueError (why : string)
| TypeError (why : string)
  (** [pydantic.ValidationError] of the named model. *)
| ValidationError (model : string)
  (** [pymongo.errors.DuplicateKeyError]. *)
| DuplicateKeyError.

Inductive result (A : Type) : Type :=
| Return (a : A)
| Raise (e : exception).
Arguments Return {A} a.
Arguments Raise {A} e.

Definition bind {A B : Type} (r : result A) (k : A -> result B) : result B :=
  match r with
  | Return a => k a
  | Raise e => Raise e
  end.

Notation "x <- r ;; k" := (bind r (fun x => k))
  (at level 100, r at next level, right associativity).

(** [try: body except JWTError: handler]. *)
Definition except_JWTError {A : Type} (body handler : result A) : result A :=
  match body with
  | Raise (JWTError _) => handler
  | r => r
  end.

(** What the client sees: FastAPI answers an [HTTPException] with its
    status code, and any other exception that leaves a handler with
    500 Internal Server Error. *)
Definition http_status {A : Type} (r : result A) : Z :=
  match r with
  | Return _ => 200
  | Raise (HTTPException status_code _) => status_code
  | Raise _ => 500
  end.

Definition is_internal_error {A : Type} (r : result A) : bool :=
  match r with
  | Return _ => false
  | Raise (HTTPException _ _) => false
  | Raise _ => true
  end.

(** ** Security settings (main.py, lines 13-18) *)

Definition ALGORITHM : string := "HS256".

(** Seven days.  main.py defines the constant and never reads it. *)
Definition ACCESS_TOKEN_EXPIRE_MINUTES : Z := 60 * 24 * 7.

(** ** Time *)

(** [timegm(dt.utctimetuple())]: the whole seconds of a [datetime]. *)
Definition timegm (us : Z) : Z := us / 1000000.

(** ** The platform *)

(** What the application takes from its libraries and its environment
    without this development looking inside. *)
Class Platform : Type := {
  (** The bearer token, an opaque string to the application. *)
  token : Type;
  (** [jws.sign(claims, key, algorithm="HS256")] and
      [jws.verify(token, key, ["HS256"])]: the HMAC-SHA256 signature
      over the JSON payload, and its check ([None] for a token that is
      malformed or whose signature does not match). *)
  jws_sign : dict -> string -> token;
  jws_verify : token -> string -> option dict;
  (** Python's [int(s)] on a string ([None]: [ValueError]). *)
  int_of_str : string -> option Z;
  (** The Blowfish key derivation behind [bcrypt.hashpw(secret, config)]:
      the 31-character digest of the key under the configuration string
      ["$2b$12$" ++ salt].  Any repair of non-canonical padding bits
      that passlib applies to a parsed salt or digest is part of it. *)
  bcrypt_digest : string -> string -> string;
  (** pydantic's [EmailStr]: the validated (normalised) address, [None]
      for a string that is no address. *)
  validate_email : string -> option string;
  (** Python's [str(x)]. *)
  py_str : value -> string;
  (** [SECRET_KEY = os.getenv("SECRET_KEY", "dev-secret-key-change-me")]. *)
  SECRET_KEY : string
}.

(** ** python-jose: [jwt.encode] and [jwt.decode] *)

Section Jose.

Context `{Platform}.

(** [jwt.encode] turns a [datetime] under "exp", "iat" or "nbf" into
    whole seconds. *)
Definition convert_time_claim (k : string) (claims : dict) : dict :=
  match claims !! k with
  | Some (VDatetime us) => <[k := VInt (timegm us)]> claims
  | _ => claims
  end.

Definition jwt_encode (claims : dict) (key : string) : result token :=
  let claims := convert_time_claim "exp" claims in
  let claims := convert_time_claim "iat" claims in
  let claims := convert_time_claim "nbf" claims in
  if bool_decide (map_Forall (fun _ v => json_serializable v = true) claims)
  then Return (jws_sign claims key)
  else Raise (TypeError "Object is not JSON serializable").

(** [int(claims[k])] inside a [try ... except ValueError]: a string
    that is no number is a [JWTClaimsError]; [None], a list, a datetime
    are a [TypeError], which python-jose does not catch. *)
Definition claim_int (k what : string) (v : value) : result Z :=
  match v with
  | VInt z => Return z
  | VBool b => Return (if b then 1 else 0)
  | VStr s =>
      match int_of_str s with
      | Some z => Return z
      | None => Raise (JWTError (what ++ " claim (" ++ k ++ ") must be an integer."))
      end
  | _ => Raise (TypeError "int() argument must be a string or a number")
  end.



Definition _validate_iat (claims : dict) : result unit :=
  match claims !! "iat" with
  | None => Return tt
  | Some v => _ <- claim_int "iat" "Issued At" v ;; Return tt
  end.

Definition _validate_nbf (claims : dict) (now : Z) : result unit :=
  match claims !! "nbf" with
  | None => Return tt
  | Some v =>
      nbf <- claim_int "nbf" "Not Before" v ;;
      if timegm now <? nbf
      then Raise (JWTError "The token is not yet valid (nbf)")
      else Return tt
  end.

(** [if exp < (now - leeway): raise ExpiredSignatureError], leeway 0. *)
Definition _validate_exp (claims : dict) (now : Z) : result unit :=
  match claims !! "exp" with
  | None => Return tt
  | Some v =>
      exp <- claim_int "exp" "Expiration Time" v ;;
      if exp <? timegm now
      then Raise (JWTError "Signature has expired.")
      else Return tt
  end.

(** No [audience] is passed: an "aud" claim never matches. *)
Definition _validate_aud (claims : dict) : result unit :=
  match claims !! "aud" with
  | None => Return tt
  | Some (VStr _) => Raise (JWTError "Invalid audience")
  | Some (VList l) =>
      if forallb is_str l
      then Raise (JWTError "Invalid audience")
      else Raise (JWTError "Invalid claim format in token")
  | Some _ => Raise (JWTError "Invalid claim format in token")
  end.

Definition _validate_sub (claims : dict) : result unit :=
  match claims !! "sub" with
  | None => Return tt
  | Some (VStr _) => Return tt
  | Some _ => Raise (JWTError "Subject must be a string.")
  end.

Definition _validate_jti (claims : dict) : result unit :=
  match claims !! "jti" with
  | None => Return tt
  | Some (VStr _) => Return tt
  | Some _ => Raise (JWTError "JWT ID must be a string.")
  end.

(** No [access_token] is passed. *)
Definition _validate_at_hash (claims : dict) : result unit :=
  match claims !! "at_hash" with
  | None => Return tt
  | Some _ => Raise (JWTError "No access_token provided to compare against at_hash claim.")
  end.

(** The default options: every check on, nothing required, no issuer
    and no subject to compare with. *)
Definition _validate_claims (claims : dict) (now : Z) : result unit :=
  _ <- _validate_iat claims ;;
  _ <- _validate_nbf claims now ;;
  _ <- _validate_exp claims now ;;
  _ <- _validate_aud claims ;;
  _ <- _validate_sub claims ;;
  _ <- _validate_jti claims ;;
  _validate_at_hash claims.

(** [jwt.decode(token, key, algorithms=["HS256"])] at the time [now]. *)
Definition jwt_decode (tok : token) (key : string) (now : Z) : result dict :=
  match jws_verify tok key with
  | None => Raise (JWTError "Signature verification failed.")
  | Some claims => _ <- _validate_claims claims now ;; Return claims
  end.

End Jose.

(** ** Strings, as the libraries slice them *)

(** [s[:n]] and [s[n:]] on encoded bytes (and on ASCII strings). *)
Fixpoint str_take (n : nat) (s : string) : string :=
  match n, s with
  | S n', String c s' => String c (str_take n' s')
  | _, _ => EmptyString
  end.

Fixpoint str_drop (n : nat) (s : string) : string :=
  match n, s with
  | S n', String _ s' => str_drop n' s'
  | _, _ => s
  end.

Fixpoint str_forall (p : ascii -> bool) (s : string) : bool :=
  match s with
  | EmptyString => true
  | String c s' => p c && str_forall p s'
  end.

Fixpoint str_mem (c : ascii) (s : string) : bool :=
  match s with
  | EmptyString => false
  | String c' s' => Ascii.eqb c c' || str_mem c s'
  end.

(** [s.split(sep)] when it has at least two parts: the part before the
    first separator and everything after it. *)
Fixpoint str_split_once (sep : ascii) (s : string) : option (string * string) :=
  match s with
  | EmptyString => None
  | String c s' =>
      if Ascii.eqb c sep then Some (EmptyString, s')
      else match str_split_once sep s' with
           | Some (a, b) => Some (String c a, b)
           | None => None
           end
  end.

(** Characters of a [str], on its UTF-8 encoding: a byte [10xxxxxx]
    continues the character that the last leading byte began. *)
Definition is_continuation_byte (c : ascii) : bool :=
  let n := nat_of_ascii c in (128 <=? n)%nat && (n <? 192)%nat.

(** [len(s)]. *)
Fixpoint utf8_length (s : string) : nat :=
  match s with
  | EmptyString => O
  | String c s' =>
      if is_continuation_byte c then utf8_length s' else S (utf8_length s')
  end.

(** [s[:n]], by characters. *)
Fixpoint utf8_take (n : nat) (s : string) : string :=
  match s with
  | EmptyString => EmptyString
  | String c s' =>
      if is_continuation_byte c then String c (utf8_take n s')
      else match n with
           | O => EmptyString
           | S n' => String c (utf8_take n' s')
           end
  end.

Definition digit_of (c : ascii) : option nat :=
  let n := nat_of_ascii c in
  if (48 <=? n)%nat && (n <=? 57)%nat then Some (n - 48)%nat else None.

(** ** passlib: [CryptContext(schemes=["bcrypt"], deprecated="auto")] *)

Section Passlib.

Context `{Platform}.

(** [passlib.utils.handlers.MAX_PASSWORD_SIZE]. *)
Definition MAX_PASSWORD_SIZE : nat := 4096.

(** bcrypt reads at most 72 bytes of its key. *)
Definition BCRYPT_KEY_BYTES : nat := 72.

Definition NUL : ascii := Ascii.zero.

Definition bcrypt64_chars : string :=
  "./ABCDEFGHIJKLMNOPQRSTUVWXYZabcdefghijklmnopqrstuvwxyz0123456789".

Definition is_bcrypt64 (s : string) : bool :=
  str_forall (fun c => str_mem c bcrypt64_chars) s.

(** [bcrypt.ident_values]. *)
Definition bcrypt_ident_values : list string :=
  ["$2$"; "$2a$"; "$2x$"; "$2y$"; "$2b$"].

(** [bcrypt.identify(hash)]: [hash.startswith(cls.ident_values)]. *)
Definition bcrypt_identify (h : string) : bool :=
  existsb (fun ident => String.prefix ident h) bcrypt_ident_values.

Definition _parse_ident (h : string) : option (string * string) :=
  let fix go (idents : list string) :=
    match idents with
    | [] => None
    | ident :: rest =>
        if String.prefix ident h
        then Some (ident, str_drop (String.length ident) h)
        else go rest
    end in
  go bcrypt_ident_values.

(** The cost field: [int(rounds_str)] must print back as ["%02d"] and lie
    within bcrypt's 4..31, so it is two decimal digits in that range. *)
Definition parse_rounds (rounds_str : string) : option nat :=
  match rounds_str with
  | String a (String b EmptyString) =>
      match digit_of a, digit_of b with
      | Some x, Some y =>
          let r := (10 * x + y)%nat in
          if (4 <=? r)%nat && (r <=? 31)%nat then Some r else None
      | _, _ => None
      end
  | _ => None
  end.

Record bcrypt_record : Type := {
  bc_ident : string;
  bc_rounds : nat;
  bc_salt : string;
  bc_checksum : option string
}.

(** [bcrypt.from_string(hash)] with the checks of the handler's
    constructor (22 salt characters and, when present, 31 digest
    characters of the bcrypt base-64 alphabet).  Every failure is a
    [ValueError] ([MalformedHashError], [ChecksumSizeError], ...). *)
Definition bcrypt_from_string (h : string) : result bcrypt_record :=
  match _parse_ident h with
  | None => Raise (ValueError "not a valid bcrypt hash")
  | Some (ident, tail) =>
      if String.eqb ident "$2x$"
      then Raise (ValueError "crypt_blowfish's buggy '2x' hashes are not currently supported")
      else
        match str_split_once "$" tail with
        | None => Raise (ValueError "not enough values to unpack")
        | Some (rounds_str, data) =>
            if str_mem "$" data
            then Raise (ValueError "too many values to unpack")
            else
              match parse_rounds rounds_str with
              | None => Raise (ValueError "malformed cost field")
              | Some rounds =>
                  let salt := str_take 22 data in
                  let chk := str_drop 22 data in
                  if negb ((String.length salt =? 22)%nat && is_bcrypt64 salt)
                  then Raise (ValueError "malformed salt")
                  else if String.eqb chk ""
                  then Return {| bc_ident := ident; bc_rounds := rounds;
                                 bc_salt := salt; bc_checksum := None |}
                  else if negb ((String.length chk =? 31)%nat && is_bcrypt64 chk)
                  then Raise (ValueError "malformed bcrypt checksum")
                  else Return {| bc_ident := ident; bc_rounds := rounds;
                                 bc_salt := salt; bc_checksum := Some chk |}
              end
        end
  end.

(** [validate_secret]: [PasswordSizeError] when [len(secret)], the
    number of characters, is beyond [MAX_PASSWORD_SIZE]. *)
Definition validate_secret (secret : string) : result unit :=
  if (MAX_PASSWORD_SIZE <? utf8_length secret)%nat
  then Raise (ValueError "password exceeds maximum allowed size")
  else Return tt.

(** [bcrypt._calc_checksum]: a NUL byte is a [PasswordValueError];
    otherwise the digest of the first 72 bytes of the secret. *)
Definition _calc_checksum (secret config : string) : result string :=
  if str_mem NUL secret
  then Raise (ValueError "bcrypt does not allow NULL bytes in password")
  else Return (bcrypt_digest (str_take BCRYPT_KEY_BYTES secret) config).

Definition bcrypt_config (ident : string) (rounds : nat) (salt : string) : string :=
  ident ++ String (ascii_of_nat (48 + rounds / 10)) (String (ascii_of_nat (48 + rounds mod 10)) "")
        ++ "$" ++ salt.

(** [pwd_context.hash(secret)] with the salt the handler drew: ident
    "2b", 12 rounds. *)
Definition pwd_context_hash (salt secret : string) : result string :=
  _ <- validate_secret secret ;;
  let config := bcrypt_config "$2b$" 12 salt in
  chk <- _calc_checksum secret config ;;
  Return (config ++ chk).

(** [bcrypt.verify(secret, hash)]. *)
Definition bcrypt_verify (secret h : string) : result bool :=
  _ <- validate_secret secret ;;
  r <- bcrypt_from_string h ;;
  match bc_checksum r with
  | None => Raise (ValueError "hash is missing its digest")
  | Some chk =>
      computed <- _calc_checksum secret (bcrypt_config (bc_ident r) (bc_rounds r) (bc_salt r)) ;;
      Return (String.eqb computed chk)
  end.

(** [pwd_context.verify(secret, hash)]: [None] is answered [False]; a
    hash that no scheme identifies is a [ValueError] ("no hash
    specified" for the empty string, [UnknownHashError] otherwise). *)
Definition pwd_context_verify (secret : string) (h : value) : result bool :=
  match h with
  | VNone => Return false
  | VStr h =>
      if bcrypt_identify h then bcrypt_verify secret h
      else if String.eqb h ""
      then Raise (ValueError "no hash specified")
      else Raise (ValueError "hash could not be identified")
  | _ => Raise (TypeError "hash must be unicode or bytes")
  end.

(** The secrets that the handler takes: no NUL byte, at most
    [MAX_PASSWORD_SIZE] characters. *)
Definition secret_accepted (secret : string) : bool :=
  negb (str_mem NUL secret) && (utf8_length secret <=? MAX_PASSWORD_SIZE)%nat.

(** A well-formed stored hash: one that bcrypt identifies and parses,
    digest included. *)
Definition wellformed_hash (h : string) : bool :=
  bcrypt_identify h
  && match bcrypt_from_string h with
     | Return r => match bc_checksum r with Some _ => true | None => false end
     | Raise _ => false
     end.

(** main.py, lines 60-64. *)
Definition hash_password (salt password : string) : result string :=
  pwd_context_hash salt password.

Definition verify_password (password : string) (password_hash : value) : result bool :=
  pwd_context_verify password password_hash.

End Passlib.

(** ** The request and response schemas (main.py, lines 30-50, 153-154) *)

(** [email: EmailStr] fields hold an address that pydantic has already
    validated when the handler runs. *)
Module RegisterRequest.
Record t : Type := {
  email : string;
  password : string;
  nickname : string;
  avatar_url : option string
}.
End RegisterRequest.

Module LoginRequest.
Record t : Type := {
  email : string;
  password : string
}.
End LoginRequest.

Module TokenResponse.
Record t (token : Type) : Type := {
  access_token : token;
  token_type : string
}.
Arguments access_token {token} _.
Arguments token_type {token} _.
End TokenResponse.

Module ProfileResponse.
Record t : Type := {
  id : string;
  email : string;
  nickname : string;
  avatar_url : option string;
  roles : list string
}.

(** The JSON object FastAPI sends for a [response_model=ProfileResponse]. *)
Definition dump (p : t) : dict :=
  <["id" := VStr (id p)]>
  (<["email" := VStr (email p)]>
  (<["nickname" := VStr (nickname p)]>
  (<["avatar_url" := match avatar_url p with Some u => VStr u | None => VNone end]>
  (<["roles" := VList (VStr <$> roles p)]> ∅)))).
End ProfileResponse.

(** ** The collection schema (schemas.py, lines 17-27) *)

Module Playeruser.


(** [is_active: bool = Field(True)]: the field as the schema reads a
    document, its default when the document has none. *)
Definition is_active (doc : dict) : value :=
  dict_get_default doc "is_active" (VBool true).
End Playeruser.

(** ** pymongo: the [playeruser] collection *)

(** Modelled from the spec: [database.py], which creates [db], is not
    among the sources.  The collection is the list of its documents in
    insertion order; whether a unique index on "email" exists (the
    spec's [insert -> Created | Conflict]) is a field of the model. *)
Record database : Type := {
  playeruser : list dict;
  unique_email : bool
}.

(** A query [{field: q}] matches a field that equals [q] or is an array
    with [q] among its elements. *)
Definition field_matches (field : option value) (q : value) : bool :=
  match field with
  | None => false
  | Some v =>
      value_eqb v q
      || match v with VList l => existsb (fun x => value_eqb x q) l | _ => false end
  end.

(** [collection.find_one({"email": email})]: the first match. *)
Definition find_one (coll : list dict) (email : value) : option dict :=
  List.find (fun doc => field_matches (doc !! "email") email) coll.

(** [collection.insert_one(doc)]: the driver adds an "_id" (a fresh
    [ObjectId], [oid]) to a document that has none; with a unique index
    on "email" an address that is already indexed is a
    [DuplicateKeyError]. *)
Definition insert_one (d : database) (oid : string) (doc : dict) : result database :=
  let doc :=
    match doc !! "_id" with
    | Some _ => doc
    | None => <["_id" := VObjectId oid]> doc
    end in
  if unique_email d
     && match find_one (playeruser d) (dict_get doc "email") with
        | Some _ => true
        | None => false
        end
  then Raise DuplicateKeyError
  else Return {| playeruser := playeruser d ++ [doc]; unique_email := unique_email d |}.

(** ** The application (main.py) *)

Section Backend.

Context `{Platform}.

(** *** Helpers (lines 54-80) *)

(** The module-level [db] is [None] when no database is configured. *)
Definition get_user_by_email (db : option database) (email : value)
  : result (option dict) :=
  match db with
  | None => Raise (HTTPException 500 "Database not configured")
  | Some d => Return (find_one (playeruser d) email)
  end.

(** [if user:] on an [Optional[dict]]. *)
Definition user_truthy (user : option dict) : bool :=
  match user with
  | None => false
  | Some doc => dict_truthy doc
  end.

(** [now] is the reading of [datetime.now(timezone.utc)]. *)
Definition create_access_token (data : dict) (now : Z) : result token :=
  let to_encode := data in
  let to_encode := <["exp" := VDatetime now]> to_encode in
  jwt_encode to_encode SECRET_KEY.

(** The field validation of [ProfileResponse]. *)
Definition validate_str (v : value) : option string :=
  match v with VStr s => Some s | _ => None end.

Definition validate_optional_str (v : value) : option (option string) :=
  match v with
  | VNone => Some None
  | VStr s => Some (Some s)
  | _ => None
  end.

Definition validate_list_str (v : value) : option (list string) :=
  match v with
  | VList l => mapM validate_str l
  | _ => None
  end.

Definition validate_EmailStr (v : value) : option string :=
  match v with VStr s => validate_email s | _ => None end.

Definition user_to_profile (doc : dict) : result ProfileResponse.t :=
  match validate_EmailStr (dict_get doc "email"),
        validate_str (dict_get doc "nickname"),
        validate_optional_str (dict_get doc "avatar_url"),
        validate_list_str (dict_get_default doc "roles" (VList [VStr "player"])) with
  | Some email, Some nickname, Some avatar_url, Some roles =>
      Return {| ProfileResponse.id := py_str (dict_get doc "_id");
                ProfileResponse.email := email;
                ProfileResponse.nickname := nickname;
                ProfileResponse.avatar_url := avatar_url;
                ProfileResponse.roles := roles |}
  | _, _, _, _ => Raise (ValidationError "ProfileResponse")
  end.

(** *** POST /auth/register (lines 121-139) *)

(** What one call of [register] reads from its environment, in the
    order of the reads: the salt of the hash, the two clock readings of
    the document, the [ObjectId] the driver draws, the clock reading of
    the token. *)
Record RegisterEnv : Type := {
  reg_salt : string;
  reg_created_at : Z;
  reg_updated_at : Z;
  reg_object_id : string;
  reg_token_time : Z
}.

Definition optional_str (o : option string) : value :=
  match o with Some s => VStr s | None => VNone end.

(** The [user_doc] literal of lines 126-134. *)
Definition user_doc (env : RegisterEnv) (payload : RegisterRequest.t)
    (password_hash : string) : dict :=
  <["email" := VStr (RegisterRequest.email payload)]>
  (<["password_hash" := VStr password_hash]>
  (<["nickname" := VStr (RegisterRequest.nickname payload)]>
  (<["avatar_url" := optional_str (RegisterRequest.avatar_url payload)]>
  (<["roles" := VList [VStr "player"]]>
  (<["created_at" := VDatetime (reg_created_at env)]>
  (<["updated_at" := VDatetime (reg_updated_at env)]> ∅)))))).

(** Lines 123-124: the lookup before the insert. *)
Definition register_check (payload : RegisterRequest.t) (db : option database)
  : result unit :=
  user <- get_user_by_email db (VStr (RegisterRequest.email payload)) ;;
  if user_truthy user
  then Raise (HTTPException 400 "Почта уже зарегистрирована")
  else Return tt.

(** Lines 126-139: the document, the insert, the token.  The result is
    the database after the call and the handler's outcome. *)
Definition register_commit (env : RegisterEnv) (payload : RegisterRequest.t)
    (db : option database) : option database * result (TokenResponse.t token) :=
  match hash_password (reg_salt env) (RegisterRequest.password payload) with
  | Raise e => (db, Raise e)
  | Return h =>
      match db with
      | None => (db, Raise (TypeError "'NoneType' object is not subscriptable"))
      | Some d =>
          match insert_one d (reg_object_id env) (user_doc env payload h) with
          | Raise e => (db, Raise e)
          | Return d' =>
              (Some d',
               tok <- create_access_token
                        {["sub" := VStr (RegisterRequest.email payload)]}
                        (reg_token_time env) ;;
               Return {| TokenResponse.access_token := tok;
                         TokenResponse.token_type := "bearer" |})
          end
      end
  end.

Definition register (env : RegisterEnv) (payload : RegisterRequest.t)
    (db : option database) : option database * result (TokenResponse.t token) :=
  match register_check payload db with
  | Raise e => (db, Raise e)
  | Return _ => register_commit env payload db
  end.

(** *** POST /auth/login (lines 141-148) *)

(** [now]: the clock reading of the token. *)
Definition login (now : Z) (payload : LoginRequest.t) (db : option database)
  : result (TokenResponse.t token) :=
  user <- get_user_by_email db (VStr (LoginRequest.email payload)) ;;
  rejected <-
    (match user with
     | Some doc =>
         if negb (dict_truthy doc) then Return true
         else ok <- verify_password (LoginRequest.password payload)
                      (dict_get_default doc "password_hash" (VStr "")) ;;
              Return (negb ok)
     | None => Return true
     end) ;;
  if (rejected : bool)
  then Raise (HTTPException 401 "Неверные данные для входа")
  else
    tok <- create_access_token
             {["sub" := VStr (LoginRequest.email payload)]} now ;;
    Return {| TokenResponse.access_token := tok;
              TokenResponse.token_type := "bearer" |}.

(** *** POST /me (lines 153-170) *)

(** [now]: the clock reading inside [jwt.decode]. *)
Definition me (now : Z) (payload_token : token) (db : option database)
  : result ProfileResponse.t :=
  email <-
    except_JWTError
      (decoded <- jwt_decode payload_token SECRET_KEY now ;;
       let email := dict_get decoded "sub" in
       if negb (truthy email)
       then Raise (HTTPException 401 "Invalid token")
       else Return email)
      (Raise (HTTPException 401 "Invalid token")) ;;
  user <- get_user_by_email db email ;;
  match user with
  | Some doc =>
      if negb (dict_truthy doc)
      then Raise (HTTPException 404 "Пользователь не найден")
      else user_to_profile doc
  | None => Raise (HTTPException 404 "Пользователь не найден")
  end.

End Backend.

(** ** GET / and GET /test (main.py, lines 83-119) *)

Definition read_root : dict := {["message" := VStr "Voxell DLC API ready"]}.

(** What [test_database] observes of the module-level [db]: the
    attribute [name] ([hasattr(db, 'name')] and [db.name]) and the
    outcome of [db.list_collection_names()].  An exception is
    represented by its message, [str(e)]. *)
Inductive attribute : Type :=
| NoAttribute
| Attribute (v : value)
| AttributeRaises (message : string).

Record DatabaseView : Type := {
  view_name : attribute;
  view_list_collection_names : list string + string
}.

(** [str(e)[:50]]: the first 50 characters of the message. *)
Definition error_excerpt (message : string) : string := utf8_take 50 message.

(** [os.getenv(name)] in a condition: set and not empty. *)
Definition getenv_truthy (v : option string) : bool :=
  match v with
  | Some s => negb (String.eqb s "")
  | None => false
  end.

(** The inner [try] of lines 104-109, on the response built so far. *)
Definition test_database_collections (view : DatabaseView) (response : dict) : dict :=
  match view_list_collection_names view with
  | inl collections =>
      let response := <["collections" := VList (VStr <$> take 10 collections)]> response in
      <["database" := VStr "✅ Connected & Working"]> response
  | inr message =>
      <["database" := VStr ("⚠️  Connected but Error: " ++ error_excerpt message)]> response
  end.

(** The outer [try] of lines 98-113. *)
Definition test_database_probe (db : option DatabaseView) (response : dict) : dict :=
  match db with
  | Some view =>
      let response := <["database" := VStr "✅ Available"]> response in
      let response := <["database_url" := VStr "✅ Configured"]> response in
      match view_name view with
      | AttributeRaises message =>
          <["database" := VStr ("❌ Error: " ++ error_excerpt message)]> response
      | name =>
          let response :=
            <["database_name" :=
                match name with
                | Attribute v => v
                | _ => VStr "✅ Connected"
                end]> response in
          let response := <["connection_status" := VStr "Connected"]> response in
          test_database_collections view response
      end
  | None => <["database" := VStr "⚠️  Available but not initialized"]> response
  end.

(** [DATABASE_URL] and [DATABASE_NAME] are the two environment
    variables as [os.getenv] reads them. *)
Definition test_database (db : option DatabaseView)
    (DATABASE_URL DATABASE_NAME : option string) : dict :=
  let response : dict :=
    <["backend" := VStr "✅ Running"]>
    (<["database" := VStr "❌ Not Available"]>
    (<["database_url" := VNone]>
    (<["database_name" := VNone]>
    (<["connection_status" := VStr "Not Connected"]>
    (<["collections" := VList []]> ∅))))) in
  let response := test_database_probe db response in
  let response :=
    <["database_url" :=
        VStr (if getenv_truthy DATABASE_URL then "✅ Set" else "❌ Not Set")]> response in
  let response :=
    <["database_name" :=
        VStr (if getenv_truthy DATABASE_NAME then "✅ Set" else "❌ Not Set")]> response in
  response.

(** ** A reference platform *)

(** Executable stand-ins for the libraries' primitives, used to run the
    model on concrete requests: a token that carries its key and claim
    set, a digest that folds its input into the bcrypt alphabet, an
    address check that looks for the at sign. *)

Definition ref_jws_sign (claims : dict) (key : string) : string * dict :=
  (key, claims).

Definition ref_jws_verify (tok : string * dict) (key : string) : option dict :=
  if String.eqb (fst tok) key then Some (snd tok) else None.

Fixpoint ref_digits (acc : Z) (s : string) : option Z :=
  match s with
  | EmptyString => Some acc
  | String c s' =>
      match digit_of c with
      | Some d => ref_digits (10 * acc + Z.of_nat d) s'
      | None => None
      end
  end.

Definition ref_int_of_str (s : string) : option Z :=
  match s with
  | EmptyString => None
  | _ => ref_digits 0 s
  end.

Fixpoint ref_fold (n : nat) (s : string) : string :=
  match n with
  | O => EmptyString
  | S n' =>
      match s with
      | EmptyString => String "." (ref_fold n' EmptyString)
      | String c s' =>
          String (if str_mem c "./ABCDEFGHIJKLMNOPQRSTUVWXYZabcdefghijklmnopqrstuvwxyz0123456789"
                  then c else "."%char)
                 (ref_fold n' s')
      end
  end.

Definition ref_bcrypt_digest (secret config : string) : string :=
  ref_fold 31 (secret ++ config).

Definition ref_validate_email (s : string) : option string :=
  if str_mem "@" s then Some s else None.

Definition ref_py_str (v : value) : string :=
  match v with
  | VNone => "None"
  | VBool true => "True"
  | VBool false => "False"
  | VStr s => s
  | VObjectId hex => hex
  | _ => "<object>"
  end.

Definition reference_platform : Platform := {|
  token := string * dict;
  jws_sign := ref_jws_sign;
  jws_verify := ref_jws_verify;
  int_of_str := ref_int_of_str;
  bcrypt_digest := ref_bcrypt_digest;
  validate_email := ref_validate_email;
  py_str := ref_py_str;
  SECRET_KEY := "dev-secret-key-change-me"
|}.

(** The requests of the specification's scenario. *)
Definition alice : RegisterRequest.t := {|
  RegisterRequest.email := "a@x.com";
  RegisterRequest.password := "pw123";
  RegisterRequest.nickname := "Alice";
  RegisterRequest.avatar_url := None
|}.

Definition alice_env : RegisterEnv := {|
  reg_salt := "abcdefghijklmnopqrstuu";
  reg_created_at := 1700000000000001;
  reg_updated_at := 1700000000000002;
  reg_object_id := "65a000000000000000000001";
  reg_token_time := 1700000000000003
|}.

Definition empty_db (unique : bool) : option database :=
  Some {| playeruser := []; unique_email := unique |}.


Definition alice_again_env : RegisterEnv := {|
  reg_salt := "ABCDEFGHIJKLMNOPQRSTUu";
  reg_created_at := 1700000000000011;
  reg_updated_at := 1700000000000012;
  reg_object_id := "65a000000000000000000002";
  reg_token_time := 1700000000000013
|}.

(** The collection after [alice] has registered on the reference
    platform. *)
Definition alice_hash : string :=
  "$2b$12$abcdefghijklmnopqrstuupw123.2b.12.abcdefghijklmnopqrs".

Definition alice_doc : dict :=
  <["_id" := VObjectId "65a000000000000000000001"]> (user_doc alice_env alice alice_hash).

Definition alice_db (unique : bool) : database :=
  {| playeruser := [alice_doc]; unique_email := unique |}.

Definition alice_token : string * dict :=
  ("dev-secret-key-change-me",
   <["exp" := VInt 1700000000]> {["sub" := VStr "a@x.com"]}).

Definition alice_profile : ProfileResponse.t := {|
  ProfileResponse.id := "65a000000000000000000001";
  ProfileResponse.email := "a@x.com";
  ProfileResponse.nickname := "Alice";
  ProfileResponse.avatar_url := None;
  ProfileResponse.roles := ["player"]
|}.

Definition alice_login : LoginRequest.t := {|
  LoginRequest.email := "a@x.com";
  LoginRequest.password := "pw123"
|}.



(** A request with a nickname of two characters. *)
Definition short_nickname : RegisterRequest.t := {|
  RegisterRequest.email := "b@x.com";
  RegisterRequest.password := "pw123";
  RegisterRequest.nickname := "ab";
  RegisterRequest.avatar_url := None
|}.

(** A stored user whose document has no "password_hash" field. *)
Definition hashless_doc : dict :=
  <["_id" := VObjectId "65a000000000000000000003"]>
  (<["email" := VStr "a@x.com"]> (<["nickname" := VStr "Alice"]> ∅)).

Definition hashless_db : database :=
  {| playeruser := [hashless_doc]; unique_email := false |}.







Definition forged_token : string * dict :=
  ("some-other-key", <["exp" := VInt 1700000000]> {["sub" := VStr "a@x.com"]}).

(** Further stored documents and requests for the edge cases. *)
Definition null_hash_doc : dict :=
  <["_id" := VObjectId "65a000000000000000000004"]>
  (<["email" := VStr "a@x.com"]>
  (<["password_hash" := VNone]> (<["nickname" := VStr "Alice"]> ∅))).

Definition null_hash_db : database :=
  {| playeruser := [null_hash_doc]; unique_email := false |}.

Definition nameless_doc : dict :=
  <["_id" := VObjectId "65a000000000000000000005"]>
  (<["email" := VStr "a@x.com"]> (<["password_hash" := VStr alice_hash]> ∅)).

Definition nameless_db : database :=
  {| playeruser := [nameless_doc]; unique_email := false |}.

Definition null_roles_doc : dict := <["roles" := VNone]> alice_doc.

(** A claim set with a caller's own "exp", and one with a [datetime]. *)
Definition claims_with_exp : dict :=
  <["exp" := VInt 1]> {["sub" := VStr "a@x.com"]}.

Definition claims_with_datetime : dict :=
  <["created_at" := VDatetime 1700000000000001]> {["sub" := VStr "a@x.com"]}.

(** A database that lists twelve collections, and one whose listing
    raises an error with a message of 60 characters, each of two bytes. *)
Definition twelve_collections : DatabaseView := {|
  view_name := Attribute (VStr "voxell");
  view_list_collection_names :=
    inl ["c01"; "c02"; "c03"; "c04"; "c05"; "c06"; "c07"; "c08"; "c09"; "c10";
         "c11"; "c12"]
|}.

Definition sixty_e_acute : string :=
  "éééééééééééééééééééééééééééééééééééééééééééééééééééééééééééé".

Definition fifty_e_acute : string :=
  "éééééééééééééééééééééééééééééééééééééééééééééééééé".

Definition failing_listing : DatabaseView := {|
  view_name := Attribute (VStr "voxell");
  view_list_collection_names := inr sixty_e_acute
|}.

(** * Properties *)

(** ** Tokens *)

Section TokenProperties.

Context `{Platform}.

(** The contract of the signature: a token signed with a key verifies
    under that key and yields the claim set that was signed. *)
Hypothesis jws_round_trip :
  forall (claims : dict) (key : string),
    jws_verify (jws_sign claims key) key = Some claims.

Lemma bind_Return {A B : Type} (r : result A) (k : A -> result B) (b : B) :
  bind r k = Return b -> exists a, r = Return a /\ k a = Return b.
Proof. destruct r as [a|e]; simpl; [eauto | discriminate]. Qed.

(** What [create_access_token] signs for a subject. *)
Lemma create_access_token_sub (e : string) (now : Z) :
  create_access_token {["sub" := VStr e]} now
  = Return (jws_sign (<["exp" := VInt (timegm now)]> {["sub" := VStr e]}) SECRET_KEY).
Proof.
  unfold create_access_token, jwt_encode.
  assert (Hexp : convert_time_claim "exp" (<["exp" := VDatetime now]> {["sub" := VStr e]})
                 = <["exp" := VInt (timegm now)]> ({["sub" := VStr e]} : dict)).
  { unfold convert_time_claim. rewrite lookup_insert_eq. apply insert_insert_eq. }
  cbv zeta. rewrite Hexp.
  assert (Hiat : forall m : dict, m !! "iat" = None -> convert_time_claim "iat" m = m).
  { intros m Hm. unfold convert_time_claim. now rewrite Hm. }
  assert (Hnbf : forall m : dict, m !! "nbf" = None -> convert_time_claim "nbf" m = m).
  { intros m Hm. unfold convert_time_claim. now rewrite Hm. }
  rewrite Hiat by reflexivity. rewrite Hnbf by reflexivity.
  rewrite bool_decide_eq_true_2; [reflexivity |].
  apply map_Forall_insert_2; [reflexivity |].
  apply map_Forall_singleton. reflexivity.
Qed.

(** (C2, as the code has it) For every subject [e], the claim set that
    [create_access_token] signs has exactly the keys "sub" and "exp":
    the subject under "sub" and an integer expiration time under "exp";
    it has no "iat" claim. *)
Theorem create_access_token_claims (e : string) (now : Z) :
  exists (claims : dict) (exp : Z),
    create_access_token {["sub" := VStr e]} now = Return (jws_sign claims SECRET_KEY)
    /\ claims = <["exp" := VInt exp]> {["sub" := VStr e]}
    /\ claims !! "sub" = Some (VStr e)
    /\ claims !! "exp" = Some (VInt exp)
    /\ claims !! "iat" = None
    /\ dom claims = ({["sub"; "exp"]} : gset string).
Proof.
  exists (<["exp" := VInt (timegm now)]> {["sub" := VStr e]}), (timegm now).
  split; [apply create_access_token_sub |].
  split; [reflexivity |].
  repeat split; reflexivity.
Qed.

(** Decoding the token of a subject while the clock still shows the
    second in which it was issued gives back the claim set. *)
Lemma jwt_decode_issued_token (e : string) (issued now : Z) :
  timegm now <= timegm issued ->
  jwt_decode (jws_sign (<["exp" := VInt (timegm issued)]> {["sub" := VStr e]}) SECRET_KEY)
    SECRET_KEY now
  = Return (<["exp" := VInt (timegm issued)]> {["sub" := VStr e]}).
Proof.
  intros Hle. unfold jwt_decode. rewrite jws_round_trip.
  unfold _validate_claims, _validate_iat, _validate_nbf, _validate_exp,
    _validate_aud, _validate_sub, _validate_jti, _validate_at_hash.
  replace ((<["exp" := VInt (timegm issued)]> {["sub" := VStr e]} : dict) !! "exp")
    with (Some (VInt (timegm issued))) by reflexivity.
  replace ((<["exp" := VInt (timegm issued)]> {["sub" := VStr e]} : dict) !! "sub")
    with (Some (VStr e)) by reflexivity.
  simpl. destruct (Z.ltb_spec (timegm issued) (timegm now)); [lia | reflexivity].
Qed.

(** A token decodes while the clock still shows the second in which it
    was issued, and its subject is the address it was issued for. *)
Lemma jwt_decode_same_second (e : string) (issued now : Z) :
  timegm now <= timegm issued ->
  exists tok claims,
    create_access_token {["sub" := VStr e]} issued = Return tok
    /\ jwt_decode tok SECRET_KEY now = Return claims
    /\ claims !! "sub" = Some (VStr e).
Proof.
  intros Hle. eexists. eexists.
  split; [apply create_access_token_sub |].
  split; [apply jwt_decode_issued_token; exact Hle | reflexivity].
Qed.

(** (C1, what the code does) A token issued for [e] is refused once the
    clock has moved to a later second: [jwt.decode] raises
    [ExpiredSignatureError] and /me answers 401 "Invalid token". *)
Theorem me_rejects_token_of_an_earlier_second
    (e : string) (issued now : Z) (db : option database) :
  timegm issued < timegm now ->
  exists tok,
    create_access_token {["sub" := VStr e]} issued = Return tok
    /\ jwt_decode tok SECRET_KEY now = Raise (JWTError "Signature has expired.")
    /\ me now tok db = Raise (HTTPException 401 "Invalid token").
Proof.
  intros Hlt. eexists.
  split; [apply create_access_token_sub |].
  assert (Hdec : jwt_decode (jws_sign (<["exp" := VInt (timegm issued)]> {["sub" := VStr e]})
                               SECRET_KEY) SECRET_KEY now
                 = Raise (JWTError "Signature has expired.")).
  { unfold jwt_decode. rewrite jws_round_trip.
    unfold _validate_claims, _validate_iat, _validate_nbf, _validate_exp.
    replace ((<["exp" := VInt (timegm issued)]> {["sub" := VStr e]} : dict) !! "exp")
      with (Some (VInt (timegm issued))) by reflexivity.
    simpl. destruct (Z.ltb_spec (timegm issued) (timegm now)); [reflexivity | lia]. }
  split; [exact Hdec |].
  unfold me. rewrite Hdec. reflexivity.
Qed.




End TokenProperties.

(** ** Passwords *)

Section StringFacts.







End StringFacts.

Section PasswordProperties.

Context `{Platform}.

(** The contract of the key derivation: a digest is 31 characters of
    the bcrypt alphabet. *)
Hypothesis bcrypt_digest_wf :
  forall (secret config : string),
    String.length (bcrypt_digest secret config) = 31%nat
    /\ is_bcrypt64 (bcrypt_digest secret config) = true.

Lemma is_bcrypt64_app (a b : string) :
  is_bcrypt64 (a ++ b) = is_bcrypt64 a && is_bcrypt64 b.
Proof.
  unfold is_bcrypt64. induction a as [|c a IH]; [reflexivity |].
  change (String c a ++ b) with (String c (a ++ b)).
  cbn [str_forall]. rewrite IH. now rewrite andb_assoc.
Qed.








(** A stored hash that is not well-formed makes [verify_password]
    raise: it never answers [False]. *)
Lemma verify_password_malformed_raises (password h : string) :
  wellformed_hash h = false ->
  exists why, verify_password password (VStr h) = Raise (ValueError why).
Proof.
  unfold wellformed_hash, verify_password, pwd_context_verify.
  destruct (bcrypt_identify h); cbn [andb].
  - unfold bcrypt_verify, validate_secret.
    destruct (MAX_PASSWORD_SIZE <? utf8_length password)%nat; cbn [bind]; [eauto |].
    assert (Hparse : forall r, bcrypt_from_string h = Raise r -> exists why, r = ValueError why).
    { unfold bcrypt_from_string. intros r.
      repeat match goal with
             | |- context [match ?x with _ => _ end] => destruct x
             end; intros [= <-]; eauto. }
    destruct (bcrypt_from_string h) as [r|e] eqn:E; cbn [bind].
    + destruct (bc_checksum r); [discriminate | eauto].
    + destruct (Hparse e eq_refl) as [why ->]. eauto.
  - intros _. destruct (String.eqb h ""); eauto.
Qed.

End PasswordProperties.

(** ** The store *)

Section StoreFacts.

Lemma find_one_Some (coll : list dict) (q : value) (doc : dict) :
  find_one coll q = Some doc ->
  In doc coll /\ field_matches (doc !! "email") q = true.
Proof. unfold find_one. apply find_some. Qed.

(** A document that a query finds has the queried field, so it is not
    the empty [dict]. *)
Lemma find_one_truthy (coll : list dict) (q : value) (doc : dict) :
  find_one coll q = Some doc -> dict_truthy doc = true.
Proof.
  intros Hf. apply find_one_Some in Hf as [_ Hm].
  unfold dict_truthy. apply negb_true_iff, bool_decide_eq_false.
  intros ->. rewrite lookup_empty in Hm. discriminate.
Qed.

Lemma find_one_app (coll : list dict) (doc : dict) (q : value) :
  find_one (coll ++ [doc]) q
  = match find_one coll q with
    | Some found => Some found
    | None => if field_matches (doc !! "email") q then Some doc else None
    end.
Proof.
  unfold find_one. induction coll as [|x coll IH]; simpl; [reflexivity |].
  destruct (field_matches (x !! "email") q); [reflexivity | exact IH].
Qed.

Lemma field_matches_str (e : string) :
  field_matches (Some (VStr e)) (VStr e) = true.
Proof. unfold field_matches. simpl. now rewrite String.eqb_refl. Qed.

End StoreFacts.

(** ** The handlers *)

Section ServiceProperties.

Context `{Platform}.

(** [insert_one] on the document of [register]: the driver adds the
    "_id", the unique index looks at the address. *)
Lemma insert_one_user_doc
    (d : database) (env : RegisterEnv) (payload : RegisterRequest.t) (h : string) :
  insert_one d (reg_object_id env) (user_doc env payload h)
  = if unique_email d
       && match find_one (playeruser d) (VStr (RegisterRequest.email payload)) with
          | Some _ => true
          | None => false
          end
    then Raise DuplicateKeyError
    else Return {| playeruser :=
                     playeruser d
                     ++ [<["_id" := VObjectId (reg_object_id env)]> (user_doc env payload h)];
                   unique_email := unique_email d |}.
Proof.
  unfold insert_one.
  change (user_doc env payload h !! "_id") with (@None value).
  cbv iota.
  change (dict_get (<["_id" := VObjectId (reg_object_id env)]> (user_doc env payload h))
            "email")
    with (VStr (RegisterRequest.email payload)).
  reflexivity.
Qed.




(** (C7, as the code has it) Every successful registration appends one
    document to the collection: it holds the address, the output of
    [hash_password] for the given password under "password_hash", the
    nickname, the avatar URL, roles equal to ["player"], the two clock
    readings under "created_at" and "updated_at" and the "_id" of the
    driver, and nothing else: no "is_active" field (a reader that goes
    through the collection schema sees its default, true) and no field
    for the password itself. *)
Theorem register_writes_user_doc
    (env : RegisterEnv) (payload : RegisterRequest.t)
    (db db' : option database) (resp : TokenResponse.t token) :
  register env payload db = (db', Return resp) ->
  exists (d : database) (h : string) (doc : dict),
    db = Some d
    /\ hash_password (reg_salt env) (RegisterRequest.password payload) = Return h
    /\ db' = Some {| playeruser := playeruser d ++ [doc];
                     unique_email := unique_email d |}
    /\ doc = <["_id" := VObjectId (reg_object_id env)]> (user_doc env payload h)
    /\ doc !! "email" = Some (VStr (RegisterRequest.email payload))
    /\ doc !! "password_hash" = Some (VStr h)
    /\ doc !! "nickname" = Some (VStr (RegisterRequest.nickname payload))
    /\ doc !! "roles" = Some (VList [VStr "player"])
    /\ doc !! "created_at" = Some (VDatetime (reg_created_at env))
    /\ doc !! "updated_at" = Some (VDatetime (reg_updated_at env))
    /\ doc !! "is_active" = None
    /\ Playeruser.is_active doc = VBool true
    /\ doc !! "password" = None
    /\ dom doc = ({["_id"; "email"; "password_hash"; "nickname"; "avatar_url";
                    "roles"; "created_at"; "updated_at"]} : gset string).
Proof.
  unfold register, register_check, get_user_by_email.
  destruct db as [d|]; cbn [bind]; [| intros [= _ ?]; discriminate].
  destruct (user_truthy _); [intros [= _ ?]; discriminate |].
  unfold register_commit.
  destruct (hash_password _ _) as [h|e] eqn:Hh; [| intros [= _ ?]; discriminate].
  rewrite insert_one_user_doc.
  destruct (_ && _); [intros [= _ ?]; discriminate |].
  intros Heq. apply (f_equal fst) in Heq. cbn [fst] in Heq. subst db'.
  exists d, h, (<["_id" := VObjectId (reg_object_id env)]> (user_doc env payload h)).
  repeat split; reflexivity.
Qed.


(** *** Login *)

(** (C3, what the code does) When the stored "password_hash" of the
    user is missing or is not a well-formed hash, [verify_password]
    raises a [ValueError] instead of answering [False]; [login] does
    not catch it, and the client gets 500, not 401. *)
Theorem login_with_malformed_hash_is_internal_error
    (now : Z) (payload : LoginRequest.t) (d : database) (doc : dict) (h : string) :
  find_one (playeruser d) (VStr (LoginRequest.email payload)) = Some doc ->
  dict_get_default doc "password_hash" (VStr "") = VStr h ->
  wellformed_hash h = false ->
  exists why : string,
    verify_password (LoginRequest.password payload) (VStr h) = Raise (ValueError why)
    /\ login now payload (Some d) = Raise (ValueError why)
    /\ http_status (login now payload (Some d)) = 500
    /\ is_internal_error (login now payload (Some d)) = true.
Proof.
  intros Hfind Hhash Hbad.
  destruct (verify_password_malformed_raises (LoginRequest.password payload) h Hbad)
    as [why Hv].
  exists why. split; [exact Hv |].
  assert (Hlogin : login now payload (Some d) = Raise (ValueError why)).
  { unfold login, get_user_by_email. cbn [bind]. rewrite Hfind.
    rewrite (find_one_truthy _ _ _ Hfind). cbn [negb].
    rewrite Hhash, Hv. reflexivity. }
  rewrite Hlogin. repeat split; reflexivity.
Qed.

(** *** The profile *)

Lemma validate_list_str_Some (l : list value) (roles : list string) :
  mapM validate_str l = Some roles -> l = VStr <$> roles.
Proof.
  revert roles. induction l as [|x l IH]; intros roles Hm.
  - injection Hm as <-. reflexivity.
  - cbn in Hm. destruct x; try discriminate.
    cbn in Hm. destruct (mapM validate_str l) as [k|] eqn:Hk; [| discriminate].
    cbn in Hm. injection Hm as <-. cbn. f_equal. apply IH. reflexivity.
Qed.

(** What [user_to_profile] returns is the projection of the document. *)
Lemma user_to_profile_Return (doc : dict) (p : ProfileResponse.t) :
  user_to_profile doc = Return p ->
  ProfileResponse.id p = py_str (dict_get doc "_id")
  /\ (exists e : string,
        dict_get doc "email" = VStr e
        /\ validate_email e = Some (ProfileResponse.email p))
  /\ dict_get doc "nickname" = VStr (ProfileResponse.nickname p)
  /\ dict_get doc "avatar_url" = optional_str (ProfileResponse.avatar_url p)
  /\ dict_get_default doc "roles" (VList [VStr "player"])
     = VList (VStr <$> ProfileResponse.roles p).
Proof.
  unfold user_to_profile.
  destruct (validate_EmailStr _) as [email|] eqn:He; [| discriminate].
  destruct (validate_str _) as [nickname|] eqn:Hn; [| discriminate].
  destruct (validate_optional_str _) as [avatar|] eqn:Ha; [| discriminate].
  destruct (validate_list_str _) as [roles|] eqn:Hr; [| discriminate].
  intros [= <-]. cbn [ProfileResponse.id ProfileResponse.email ProfileResponse.nickname
                      ProfileResponse.avatar_url ProfileResponse.roles].
  split; [reflexivity |].
  split.
  { unfold validate_EmailStr in He. destruct (dict_get doc "email"); try discriminate. eauto. }
  split.
  { unfold validate_str in Hn. destruct (dict_get doc "nickname"); try discriminate.
    now injection Hn as ->. }
  split.
  { unfold validate_optional_str in Ha.
    destruct (dict_get doc "avatar_url"); try discriminate; now injection Ha as <-. }
  unfold validate_list_str in Hr.
  destruct (dict_get_default doc "roles" _); try discriminate.
  f_equal. now apply validate_list_str_Some.
Qed.

(** The response has the five fields of the model and no other. *)
Lemma ProfileResponse_dump_keys (p : ProfileResponse.t) :
  dom (ProfileResponse.dump p)
  = ({["id"; "email"; "nickname"; "avatar_url"; "roles"]} : gset string)
  /\ ProfileResponse.dump p !! "password_hash" = None.
Proof. split; reflexivity. Qed.

(** (C6) Every profile that /me returns is the projection of a stored
    user document onto id, email, nickname, avatar_url and roles: the
    response has exactly these five fields, each read from the
    document, and no "password_hash" field, whatever the document
    holds. *)
Theorem me_returns_projection
    (now : Z) (tok : token) (db : option database) (p : ProfileResponse.t) :
  me now tok db = Return p ->
  exists (d : database) (doc : dict) (e : string),
    db = Some d
    /\ In doc (playeruser d)
    /\ user_to_profile doc = Return p
    /\ ProfileResponse.id p = py_str (dict_get doc "_id")
    /\ dict_get doc "email" = VStr e
    /\ validate_email e = Some (ProfileResponse.email p)
    /\ dict_get doc "nickname" = VStr (ProfileResponse.nickname p)
    /\ dict_get doc "avatar_url" = optional_str (ProfileResponse.avatar_url p)
    /\ dict_get_default doc "roles" (VList [VStr "player"])
       = VList (VStr <$> ProfileResponse.roles p)
    /\ dom (ProfileResponse.dump p)
       = ({["id"; "email"; "nickname"; "avatar_url"; "roles"]} : gset string)
    /\ ProfileResponse.dump p !! "password_hash" = None.
Proof.
  unfold me. intros Hme.
  apply bind_Return in Hme as (email & _ & Hme).
  apply bind_Return in Hme as (user & Huser & Hme).
  unfold get_user_by_email in Huser.
  destruct db as [d|]; [| discriminate]. injection Huser as <-.
  destruct (find_one (playeruser d) email) as [doc|] eqn:Hfind; [| discriminate].
  destruct (negb (dict_truthy doc)); [discriminate |].
  apply find_one_Some in Hfind as [Hin _].
  destruct (user_to_profile_Return _ _ Hme) as (Hid & (e & He & Hv) & Hn & Ha & Hr).
  destruct (ProfileResponse_dump_keys p) as [Hdom Hnone].
  exists d, doc, e. repeat split; assumption.
Qed.

End ServiceProperties.

(** ** The scenario of the specification *)

Section Scenario.

Context `{Platform}.

Hypothesis jws_round_trip :
  forall (claims : dict) (key : string),
    jws_verify (jws_sign claims key) key = Some claims.

Hypothesis bcrypt_digest_wf :
  forall (secret config : string),
    String.length (bcrypt_digest secret config) = 31%nat
    /\ is_bcrypt64 (bcrypt_digest secret config) = true.


End Scenario.

(** * Further properties of the handlers and their helpers *)

(** ** Token creation on any claim set *)

Section TokenCreation.

Context `{Platform}.

Lemma convert_time_claim_other (k k' : string) (claims : dict) :
  k <> k' -> convert_time_claim k claims !! k' = claims !! k'.
Proof.
  intros Hne. unfold convert_time_claim.
  destruct (claims !! k) as [[]|]; try reflexivity.
  now rewrite lookup_insert_ne.
Qed.

Lemma convert_time_claim_serializable (k : string) (claims : dict) :
  map_Forall (fun _ v => json_serializable v = true) claims ->
  convert_time_claim k claims = claims.
Proof.
  intros Hall. unfold convert_time_claim.
  destruct (claims !! k) as [v|] eqn:Hk; [| reflexivity].
  specialize (Hall k v Hk). destruct v; try reflexivity. discriminate.
Qed.

(** [create_access_token] on any JSON-serialisable claim set signs that
    claim set with "exp" set to the whole seconds of the clock reading;
    an "exp" that the caller supplied is overwritten. *)
Theorem create_access_token_serializable (data : dict) (now : Z) :
  map_Forall (fun _ v => json_serializable v = true) data ->
  create_access_token data now
  = Return (jws_sign (<["exp" := VInt (timegm now)]> data) SECRET_KEY).
Proof.
  intros Hall. unfold create_access_token, jwt_encode. cbv zeta.
  assert (Hexp : convert_time_claim "exp" (<["exp" := VDatetime now]> data)
                 = <["exp" := VInt (timegm now)]> data).
  { unfold convert_time_claim. rewrite lookup_insert_eq. apply insert_insert_eq. }
  assert (Hall' : map_Forall (fun _ v => json_serializable v = true)
                    (<["exp" := VInt (timegm now)]> data)).
  { apply map_Forall_insert_2; [reflexivity | exact Hall]. }
  rewrite Hexp, !(convert_time_claim_serializable _ _ Hall').
  now rewrite bool_decide_eq_true_2.
Qed.

(** A value that [json.dumps] refuses (a [datetime], an [ObjectId])
    under a key other than the three time claims makes
    [create_access_token] raise [TypeError]: no token is issued. *)
Theorem create_access_token_not_serializable
    (data : dict) (now : Z) (k : string) (v : value) :
  data !! k = Some v ->
  json_serializable v = false ->
  k <> "exp" -> k <> "iat" -> k <> "nbf" ->
  create_access_token data now = Raise (TypeError "Object is not JSON serializable").
Proof.
  intros Hk Hv Hexp Hiat Hnbf. unfold create_access_token, jwt_encode. cbv zeta.
  rewrite bool_decide_eq_false_2; [reflexivity |].
  intros Hall. specialize (Hall k v).
  rewrite !convert_time_claim_other, lookup_insert_ne in Hall by congruence.
  specialize (Hall Hk). congruence.
Qed.

End TokenCreation.

(** ** Registration and the collection *)

Section RegistrationFacts.

Context `{Platform}.

(** What a successful [register] has done. *)
Lemma register_Return_inv
    (env : RegisterEnv) (payload : RegisterRequest.t)
    (db db' : option database) (resp : TokenResponse.t token) :
  register env payload db = (db', Return resp) ->
  exists (d : database) (h : string),
    db = Some d
    /\ find_one (playeruser d) (VStr (RegisterRequest.email payload)) = None
    /\ hash_password (reg_salt env) (RegisterRequest.password payload) = Return h
    /\ db' = Some {| playeruser :=
                       (playeruser d
                        ++ [<["_id" := VObjectId (reg_object_id env)]>
                              (user_doc env payload h)])%list;
                     unique_email := unique_email d |}
    /\ resp = {| TokenResponse.access_token :=
                   jws_sign (<["exp" := VInt (timegm (reg_token_time env))]>
                               {["sub" := VStr (RegisterRequest.email payload)]})
                            SECRET_KEY;
                 TokenResponse.token_type := "bearer" |}.
Proof.
  unfold register, register_check, get_user_by_email.
  destruct db as [d|]; cbn [bind]; [| intros [= _ ?]; discriminate].
  destruct (find_one (playeruser d) (VStr (RegisterRequest.email payload)))
    as [found|] eqn:Hfind.
  { cbn [user_truthy]. rewrite (find_one_truthy _ _ _ Hfind).
    intros [= _ ?]; discriminate. }
  cbn [user_truthy]. unfold register_commit.
  destruct (hash_password _ _) as [h|e] eqn:Hh; [| intros [= _ ?]; discriminate].
  rewrite insert_one_user_doc, Hfind, andb_false_r, create_access_token_sub.
  cbn [bind]. intros Heq.
  exists d, h. split; [reflexivity |]. split; [exact Hfind |]. split; [reflexivity |].
  split.
  - apply (f_equal fst) in Heq. cbn [fst] in Heq. now subst db'.
  - apply (f_equal snd) in Heq. cbn [snd] in Heq. now injection Heq as <-.
Qed.

Lemma register_Raise_unchanged
    (env : RegisterEnv) (payload : RegisterRequest.t)
    (db db' : option database) (e : exception) :
  register env payload db = (db', Raise e) -> db' = db.
Proof.
  unfold register.
  destruct (register_check payload db); [| now intros [= <- _]].
  unfold register_commit.
  destruct (hash_password _ _) as [h|e0]; [| now intros [= <- _]].
  destruct db as [d|]; [| now intros [= <- _]].
  destruct (insert_one d _ _) as [d'|e0]; [| now intros [= <- _]].
  rewrite create_access_token_sub. cbn [bind]. intros Heq.
  apply (f_equal snd) in Heq. cbn [snd] in Heq. discriminate.
Qed.

(** After a successful registration the lookup of the registered
    address finds the document that was written, with the address and
    the nickname of the request. *)
Theorem register_then_lookup
    (env : RegisterEnv) (payload : RegisterRequest.t)
    (db db' : option database) (resp : TokenResponse.t token) :
  register env payload db = (db', Return resp) ->
  exists doc : dict,
    get_user_by_email db' (VStr (RegisterRequest.email payload)) = Return (Some doc)
    /\ doc !! "_id" = Some (VObjectId (reg_object_id env))
    /\ doc !! "email" = Some (VStr (RegisterRequest.email payload))
    /\ doc !! "nickname" = Some (VStr (RegisterRequest.nickname payload)).
Proof.
  intros Hreg.
  destruct (register_Return_inv _ _ _ _ _ Hreg) as (d & h & -> & Hfind & _ & -> & _).
  eexists. split.
  - unfold get_user_by_email. cbn [playeruser].
    rewrite find_one_app, Hfind.
    change ((<["_id" := VObjectId (reg_object_id env)]> (user_doc env payload h)) !! "email")
      with (Some (VStr (RegisterRequest.email payload))).
    rewrite field_matches_str. reflexivity.
  - repeat split; reflexivity.
Qed.

Lemma field_matches_other_str (e e' : string) :
  e <> e' -> field_matches (Some (VStr e)) (VStr e') = false.
Proof.
  intros Hne. unfold field_matches. cbn [value_eqb]. rewrite orb_false_r.
  now apply String.eqb_neq.
Qed.

(** A registration does not change what the lookup of any other
    address finds, and an unsuccessful one changes no lookup at all. *)
Theorem register_keeps_other_lookups
    (env : RegisterEnv) (payload : RegisterRequest.t)
    (db db' : option database) (r : result (TokenResponse.t token)) (other : string) :
  register env payload db = (db', r) ->
  RegisterRequest.email payload <> other ->
  get_user_by_email db' (VStr other) = get_user_by_email db (VStr other).
Proof.
  intros Hreg Hne. destruct r as [resp|e].
  - destruct (register_Return_inv _ _ _ _ _ Hreg) as (d & h & -> & _ & _ & -> & _).
    unfold get_user_by_email. cbn [playeruser]. f_equal.
    rewrite find_one_app.
    change ((<["_id" := VObjectId (reg_object_id env)]> (user_doc env payload h)) !! "email")
      with (Some (VStr (RegisterRequest.email payload))).
    rewrite (field_matches_other_str _ _ Hne).
    now destruct (find_one (playeruser d) (VStr other)).
  - now rewrite (register_Raise_unchanged _ _ _ _ _ Hreg).
Qed.

End RegistrationFacts.

(** ** The hasher *)

Section HasherFacts.

Context `{Platform}.

Hypothesis bcrypt_digest_wf :
  forall (secret config : string),
    String.length (bcrypt_digest secret config) = 31%nat
    /\ is_bcrypt64 (bcrypt_digest secret config) = true.




Lemma bcrypt_from_string_Raise (h : string) (e : exception) :
  bcrypt_from_string h = Raise e -> exists why, e = ValueError why.
Proof.
  unfold bcrypt_from_string.
  repeat match goal with
         | |- context [match ?x with _ => _ end] => destruct x
         end; intros [= <-]; eauto.
Qed.

(** A password that the hasher does not take (a NUL byte, more than
    4096 characters) is not answered by [False]: hashing it raises a
    [ValueError], and so does verifying it against any stored hash
    string. *)
Theorem unaccepted_password_raises (salt password : string) :
  secret_accepted password = false ->
  (exists why, hash_password salt password = Raise (ValueError why))
  /\ (forall h : string,
        exists why, verify_password password (VStr h) = Raise (ValueError why)).
Proof.
  intros Hpw.
  assert (Hcases : (MAX_PASSWORD_SIZE <? utf8_length password)%nat = true
                   \/ ((MAX_PASSWORD_SIZE <? utf8_length password)%nat = false
                       /\ str_mem NUL password = true)).
  { unfold secret_accepted in Hpw. apply andb_false_iff in Hpw as [Hn | Hl].
    - apply negb_false_iff in Hn.
      destruct (MAX_PASSWORD_SIZE <? utf8_length password)%nat; auto.
    - left. apply Nat.ltb_lt. apply Nat.leb_gt in Hl. exact Hl. }
  split.
  - unfold hash_password, pwd_context_hash, validate_secret, _calc_checksum.
    destruct Hcases as [-> | [-> ->]]; cbn [bind]; eauto.
  - intros h. unfold verify_password, pwd_context_verify.
    destruct (bcrypt_identify h); [| destruct (String.eqb h ""); eauto].
    unfold bcrypt_verify, validate_secret, _calc_checksum.
    destruct Hcases as [-> | [-> ->]]; cbn [bind]; [eauto |].
    destruct (bcrypt_from_string h) as [r|e] eqn:E; cbn [bind].
    + destruct (bc_checksum r); cbn [bind]; eauto.
    + destruct (bcrypt_from_string_Raise _ _ E) as [why ->]. eauto.
Qed.

End HasherFacts.

(** ** The two failures of a login *)

Section LoginFailures.

Context `{Platform}.



End LoginFailures.

(** ** Login, the profile and the missing database *)

Section HandlerFacts.

Context `{Platform}.

(** [login] issues a token only after [verify_password] has accepted
    the password against the hash of the document that the lookup
    found; the token is the one of the address, with "exp" at the clock
    reading. *)
Theorem login_token_requires_verified_password
    (now : Z) (payload : LoginRequest.t) (db : option database)
    (resp : TokenResponse.t token) :
  login now payload db = Return resp ->
  exists (d : database) (doc : dict),
    db = Some d
    /\ find_one (playeruser d) (VStr (LoginRequest.email payload)) = Some doc
    /\ verify_password (LoginRequest.password payload)
         (dict_get_default doc "password_hash" (VStr "")) = Return true
    /\ resp = {| TokenResponse.access_token :=
                   jws_sign (<["exp" := VInt (timegm now)]>
                               {["sub" := VStr (LoginRequest.email payload)]})
                            SECRET_KEY;
                 TokenResponse.token_type := "bearer" |}.
Proof.
  unfold login, get_user_by_email.
  destruct db as [d|]; cbn [bind]; [| discriminate].
  destruct (find_one (playeruser d) (VStr (LoginRequest.email payload)))
    as [doc|] eqn:Hfind; cbn [bind]; [| discriminate].
  rewrite (find_one_truthy _ _ _ Hfind). cbn [negb].
  destruct (verify_password _ _) as [[|]|e] eqn:Hv; cbn [bind negb];
    [| intros Hx; discriminate Hx | intros Hx; discriminate Hx].
  rewrite create_access_token_sub. cbn [bind]. intros [= <-].
  exists d, doc. repeat split; assumption || reflexivity.
Qed.

(** A stored "password_hash" that is an explicit null makes the login
    fail with 401: passlib answers [False] for [None], where a missing
    field or a malformed string raises. *)
Theorem login_with_null_hash_is_unauthorized
    (now : Z) (payload : LoginRequest.t) (d : database) (doc : dict) :
  find_one (playeruser d) (VStr (LoginRequest.email payload)) = Some doc ->
  doc !! "password_hash" = Some VNone ->
  login now payload (Some d) = Raise (HTTPException 401 "Неверные данные для входа").
Proof.
  intros Hfind Hnull. unfold login, get_user_by_email. cbn [bind].
  rewrite Hfind, (find_one_truthy _ _ _ Hfind). cbn [negb].
  unfold dict_get_default. rewrite Hnull. reflexivity.
Qed.

Lemma dict_get_Some (d : dict) (k : string) (v : value) :
  d !! k = Some v -> dict_get d k = v.
Proof. intros Hk. unfold dict_get. now rewrite Hk. Qed.

Lemma dict_get_None (d : dict) (k : string) :
  d !! k = None -> dict_get d k = VNone.
Proof. intros Hk. unfold dict_get. now rewrite Hk. Qed.

Lemma validate_claims_Return (claims : dict) (now : Z) :
  _validate_claims claims now = Return tt ->
  (forall exp : Z, claims !! "exp" = Some (VInt exp) -> timegm now <= exp)
  /\ (claims !! "sub" = None \/ exists e, claims !! "sub" = Some (VStr e)).
Proof.
  unfold _validate_claims. intros Hv.
  apply bind_Return in Hv as (u1 & _ & Hv).
  apply bind_Return in Hv as (u2 & _ & Hv).
  apply bind_Return in Hv as (u3 & Hexp & Hv).
  apply bind_Return in Hv as (u4 & _ & Hv).
  apply bind_Return in Hv as (u5 & Hsub & _).
  split.
  - intros exp Hk. unfold _validate_exp in Hexp. rewrite Hk in Hexp.
    cbn [claim_int bind] in Hexp.
    destruct (Z.ltb_spec exp (timegm now)); [discriminate | lia].
  - unfold _validate_sub in Hsub.
    destruct (claims !! "sub") as [[]|]; try discriminate; eauto.
Qed.

(** /me returns a profile only for a token whose signature verifies
    under the secret key, whose "exp" has not passed and whose subject
    is a non-empty string; the profile is the one of the first stored
    document whose address matches that subject. *)
Theorem me_returns_profile_of_subject
    (now : Z) (tok : token) (db : option database) (p : ProfileResponse.t) :
  me now tok db = Return p ->
  exists (claims : dict) (e : string) (d : database) (doc : dict),
    jws_verify tok SECRET_KEY = Some claims
    /\ claims !! "sub" = Some (VStr e)
    /\ String.eqb e "" = false
    /\ (forall exp : Z, claims !! "exp" = Some (VInt exp) -> timegm now <= exp)
    /\ db = Some d
    /\ find_one (playeruser d) (VStr e) = Some doc
    /\ field_matches (doc !! "email") (VStr e) = true
    /\ user_to_profile doc = Return p.
Proof.
  unfold me. intros Hme.
  apply bind_Return in Hme as (email & Hemail & Hme).
  apply bind_Return in Hme as (user & Huser & Hme).
  unfold jwt_decode in Hemail.
  destruct (jws_verify tok SECRET_KEY) as [claims|] eqn:Hsig; [| discriminate].
  destruct (_validate_claims claims now) as [[]|err] eqn:Hval;
    [| cbn in Hemail; destruct err; discriminate].
  cbn [bind except_JWTError] in Hemail.
  destruct (validate_claims_Return _ _ Hval) as [Hexp Hsub].
  destruct Hsub as [Hsub | [e Hsub]];
    [rewrite (dict_get_None _ _ Hsub) in Hemail; discriminate Hemail
    | rewrite (dict_get_Some _ _ _ Hsub) in Hemail].
  cbn [truthy] in Hemail.
  destruct (String.eqb e "") eqn:Hne; cbn [negb except_JWTError] in Hemail;
    [discriminate Hemail |].
  injection Hemail as <-.
  unfold get_user_by_email in Huser.
  destruct db as [d|]; [| discriminate]. injection Huser as <-.
  destruct (find_one (playeruser d) (VStr e)) as [doc|] eqn:Hfind; [| discriminate].
  destruct (negb (dict_truthy doc)); [discriminate |].
  destruct (find_one_Some _ _ _ Hfind) as [_ Hmatch].
  exists claims, e, d, doc. repeat split; assumption || reflexivity.
Qed.

(** A token that decodes to a subject for which the collection holds no
    document is answered with 404. *)
Theorem me_unknown_user_is_not_found
    (now : Z) (tok : token) (claims : dict) (e : string) (d : database) :
  jwt_decode tok SECRET_KEY now = Return claims ->
  claims !! "sub" = Some (VStr e) ->
  String.eqb e "" = false ->
  find_one (playeruser d) (VStr e) = None ->
  me now tok (Some d) = Raise (HTTPException 404 "Пользователь не найден")
  /\ http_status (me now tok (Some d)) = 404.
Proof.
  intros Hdec Hsub Hne Hfind.
  assert (Hme : me now tok (Some d) = Raise (HTTPException 404 "Пользователь не найден")).
  { unfold me. rewrite Hdec. cbn [bind]. rewrite (dict_get_Some _ _ _ Hsub).
    cbn [truthy]. rewrite Hne. cbn [negb except_JWTError bind].
    unfold get_user_by_email. cbn [bind]. now rewrite Hfind. }
  now rewrite Hme.
Qed.

(** A stored document without a nickname cannot be shown: for a token
    of its subject /me raises pydantic's [ValidationError], a 500. *)
Theorem me_document_without_nickname
    (now : Z) (tok : token) (claims : dict) (e : string) (d : database) (doc : dict) :
  jwt_decode tok SECRET_KEY now = Return claims ->
  claims !! "sub" = Some (VStr e) ->
  String.eqb e "" = false ->
  find_one (playeruser d) (VStr e) = Some doc ->
  doc !! "nickname" = None ->
  me now tok (Some d) = Raise (ValidationError "ProfileResponse")
  /\ http_status (me now tok (Some d)) = 500.
Proof.
  intros Hdec Hsub Hne Hfind Hnick.
  assert (Hme : me now tok (Some d) = Raise (ValidationError "ProfileResponse")).
  { unfold me. rewrite Hdec. cbn [bind]. rewrite (dict_get_Some _ _ _ Hsub).
    cbn [truthy]. rewrite Hne. cbn [negb except_JWTError bind].
    unfold get_user_by_email. cbn [bind].
    rewrite Hfind, (find_one_truthy _ _ _ Hfind). cbn [negb].
    unfold user_to_profile.
    rewrite (dict_get_None _ _ Hnick).
    cbn [validate_str].
    destruct (validate_EmailStr _); reflexivity. }
  now rewrite Hme.
Qed.

(** [user_to_profile] on a document that has neither "roles" nor
    "avatar_url": the roles default to ["player"], the avatar to none. *)
Theorem user_to_profile_defaults (doc : dict) (e e' n : string) :
  doc !! "email" = Some (VStr e) ->
  validate_email e = Some e' ->
  doc !! "nickname" = Some (VStr n) ->
  doc !! "avatar_url" = None ->
  doc !! "roles" = None ->
  user_to_profile doc
  = Return {| ProfileResponse.id := py_str (dict_get doc "_id");
              ProfileResponse.email := e';
              ProfileResponse.nickname := n;
              ProfileResponse.avatar_url := None;
              ProfileResponse.roles := ["player"] |}.
Proof.
  intros He Hv Hn Ha Hr. unfold user_to_profile.
  rewrite (dict_get_Some _ _ _ He), (dict_get_Some _ _ _ Hn), (dict_get_None _ _ Ha).
  replace (dict_get_default doc "roles" (VList [VStr "player"])) with (VList [VStr "player"])
    by (unfold dict_get_default; now rewrite Hr).
  cbn [validate_EmailStr validate_str validate_optional_str].
  rewrite Hv. reflexivity.
Qed.

(** The default of the roles is for a missing key only: a document
    whose "roles" is an explicit null, or anything but a list of
    strings, is refused with [ValidationError]. *)
Theorem user_to_profile_roles_not_a_list (doc : dict) (v : value) :
  doc !! "roles" = Some v ->
  validate_list_str v = None ->
  user_to_profile doc = Raise (ValidationError "ProfileResponse").
Proof.
  intros Hr Hv. unfold user_to_profile.
  replace (dict_get_default doc "roles" (VList [VStr "player"])) with v
    by (unfold dict_get_default; now rewrite Hr).
  rewrite Hv.
  destruct (validate_EmailStr _); [| reflexivity].
  destruct (validate_str _); [| reflexivity].
  destruct (validate_optional_str _); reflexivity.
Qed.

(** With no database configured, [register] and [login] answer 500
    "Database not configured" and so does /me for a token with a
    subject; a token that does not decode is refused with 401 before
    the database is looked at. *)
Theorem handlers_without_database
    (env : RegisterEnv) (reg : RegisterRequest.t) (now : Z) (log : LoginRequest.t)
    (tok bad : token) (claims : dict) (e : string) :
  jwt_decode tok SECRET_KEY now = Return claims ->
  claims !! "sub" = Some (VStr e) ->
  String.eqb e "" = false ->
  jws_verify bad SECRET_KEY = None ->
  register env reg None = (None, Raise (HTTPException 500 "Database not configured"))
  /\ login now log None = Raise (HTTPException 500 "Database not configured")
  /\ me now tok None = Raise (HTTPException 500 "Database not configured")
  /\ me now bad None = Raise (HTTPException 401 "Invalid token").
Proof.
  intros Hdec Hsub Hne Hbad.
  split; [reflexivity |]. split; [reflexivity |]. split.
  - unfold me. rewrite Hdec. cbn [bind]. rewrite (dict_get_Some _ _ _ Hsub).
    cbn [truthy]. rewrite Hne. reflexivity.
  - unfold me, jwt_decode. rewrite Hbad. reflexivity.
Qed.

End HandlerFacts.

(** ** GET /test *)

Section TestDatabaseFacts.

#[local] Set Warnings "-clear-no-such-hyp".

Lemma test_database_probe_keeps (db : option DatabaseView) (response : dict) :
  dom (test_database_probe db response)
  = dom response
    ∪ match db with
      | None => {["database"]}
      | Some view =>
          match view_name view with
          | AttributeRaises _ => {["database"; "database_url"]}
          | _ =>
              match view_list_collection_names view with
              | inl _ => {["database"; "database_url"; "database_name";
                           "connection_status"; "collections"]}
              | inr _ => {["database"; "database_url"; "database_name";
                           "connection_status"]}
              end
          end
      end.
Proof.
  unfold test_database_probe, test_database_collections.
  destruct db as [view|]; [| rewrite dom_insert_L; set_solver].
  destruct (view_name view), (view_list_collection_names view);
    cbv zeta; rewrite !dom_insert_L; set_solver.
Qed.

(** The two fields "database_url" and "database_name" of the response
    say only whether the environment variables are set and not empty;
    neither the name of the database nor "Configured" ever reaches the
    response. *)
Theorem test_database_environment_fields
    (db : option DatabaseView) (DATABASE_URL DATABASE_NAME : option string) :
  test_database db DATABASE_URL DATABASE_NAME !! "database_url"
  = Some (VStr (if getenv_truthy DATABASE_URL then "✅ Set" else "❌ Not Set"))
  /\ test_database db DATABASE_URL DATABASE_NAME !! "database_name"
     = Some (VStr (if getenv_truthy DATABASE_NAME then "✅ Set" else "❌ Not Set")).
Proof.
  unfold test_database. cbv zeta. split.
  - rewrite lookup_insert_ne by discriminate. apply lookup_insert_eq.
  - apply lookup_insert_eq.
Qed.

(** Whatever the database does, the response has the same six fields,
    "backend" says "Running", and "connection_status" says "Connected"
    exactly when there is a database whose [name] could be read. *)
Theorem test_database_response_shape
    (db : option DatabaseView) (DATABASE_URL DATABASE_NAME : option string) :
  dom (test_database db DATABASE_URL DATABASE_NAME)
  = ({["backend"; "database"; "database_url"; "database_name";
       "connection_status"; "collections"]} : gset string)
  /\ test_database db DATABASE_URL DATABASE_NAME !! "backend" = Some (VStr "✅ Running")
  /\ test_database db DATABASE_URL DATABASE_NAME !! "connection_status"
     = Some (VStr match db with
                  | Some view =>
                      match view_name view with
                      | AttributeRaises _ => "Not Connected"
                      | _ => "Connected"
                      end
                  | None => "Not Connected"
                  end).
Proof.
  split; [| split].
  - unfold test_database. cbv zeta.
    rewrite !dom_insert_L, test_database_probe_keeps, !dom_insert_L, dom_empty_L.
    destruct db as [view|]; [| set_solver].
    destruct (view_name view), (view_list_collection_names view); set_solver.
  - unfold test_database, test_database_probe, test_database_collections. cbv zeta.
    rewrite !lookup_insert_ne by discriminate.
    destruct db as [view|]; [| reflexivity].
    destruct (view_name view), (view_list_collection_names view); reflexivity.
  - unfold test_database, test_database_probe, test_database_collections. cbv zeta.
    rewrite !lookup_insert_ne by discriminate.
    destruct db as [view|]; [| reflexivity].
    destruct (view_name view), (view_list_collection_names view); reflexivity.
Qed.

(** The "collections" of the response are at most ten names: the first
    ten that the database lists, in its order, and none when there is
    no database or when reading its name or listing raised. *)
Theorem test_database_collections_bound
    (db : option DatabaseView) (DATABASE_URL DATABASE_NAME : option string) :
  exists shown : list string,
    test_database db DATABASE_URL DATABASE_NAME !! "collections"
    = Some (VList (VStr <$> shown))
    /\ (length shown <= 10)%nat
    /\ shown = match db with
               | Some view =>
                   match view_name view, view_list_collection_names view with
                   | AttributeRaises _, _ => []
                   | _, inl names => take 10 names
                   | _, inr _ => []
                   end
               | None => []
               end.
Proof.
  eexists. split; [| split; [| reflexivity]].
  - unfold test_database, test_database_probe, test_database_collections. cbv zeta.
    rewrite !lookup_insert_ne by discriminate.
    destruct db as [view|]; [| reflexivity].
    destruct (view_name view), (view_list_collection_names view); reflexivity.
  - destruct db as [view|]; [| cbn; lia].
    destruct (view_name view), (view_list_collection_names view);
      rewrite ?length_take; cbn [length]; lia.
Qed.

Lemma utf8_take_length (n : nat) (s : string) :
  (utf8_length (utf8_take n s) <= n)%nat.
Proof.
  revert n. induction s as [|c s IH]; intros n; cbn [utf8_take utf8_length]; [lia |].
  destruct (is_continuation_byte c) eqn:Hc.
  - cbn [utf8_length]. rewrite Hc. apply IH.
  - destruct n as [|n]; cbn [utf8_length]; [lia |].
    rewrite Hc. specialize (IH n). lia.
Qed.

(** When listing the collections raises, the handler does not fail: the
    "database" field reports the error with the first 50 characters of
    its message (all of it when it is shorter), and no collection is
    shown. *)
Theorem test_database_listing_error
    (view : DatabaseView) (message : string)
    (DATABASE_URL DATABASE_NAME : option string) :
  (forall m, view_name view <> AttributeRaises m) ->
  view_list_collection_names view = inr message ->
  exists excerpt : string,
    test_database (Some view) DATABASE_URL DATABASE_NAME !! "database"
    = Some (VStr ("⚠️  Connected but Error: " ++ excerpt))
    /\ excerpt = utf8_take 50 message
    /\ (utf8_length excerpt <= 50)%nat
    /\ test_database (Some view) DATABASE_URL DATABASE_NAME !! "collections"
       = Some (VList []).
Proof.
  intros Hname Hlist. exists (utf8_take 50 message).
  split; [| split; [reflexivity | split; [apply utf8_take_length |]]].
  - unfold test_database, test_database_probe, test_database_collections. cbv zeta.
    rewrite !lookup_insert_ne by discriminate. rewrite Hlist.
    destruct (view_name view) as [|v|m]; [reflexivity | reflexivity |].
    now destruct (Hname m).
  - unfold test_database, test_database_probe, test_database_collections. cbv zeta.
    rewrite !lookup_insert_ne by discriminate. rewrite Hlist.
    destruct (view_name view) as [|v|m]; [reflexivity | reflexivity |].
    now destruct (Hname m).
Qed.

End TestDatabaseFacts.

(** * The properties on the reference platform *)

(** The reference platform meets the two contracts the properties rest
    on. *)
Lemma ref_jws_round_trip (claims : dict) (key : string) :
  @jws_verify reference_platform (@jws_sign reference_platform claims key) key
  = Some claims.
Proof.
  cbn [jws_verify jws_sign reference_platform]. unfold ref_jws_verify, ref_jws_sign.
  cbn [fst snd]. now rewrite String.eqb_refl.
Qed.



Lemma register_alice (unique : bool) :
  @register reference_platform alice_env alice (empty_db unique)
  = (Some (alice_db unique),
     Return {| TokenResponse.access_token := alice_token;
               TokenResponse.token_type := "bearer" |}).
Proof. destruct unique; vm_compute; reflexivity. Qed.

(** C1: issued in second 1700000000, presented in second 1700000001. *)
Lemma me_rejects_token_of_an_earlier_second_witness :
  timegm 1700000000000003 < timegm 1700000001000000
  /\ @create_access_token reference_platform {["sub" := VStr "a@x.com"]} 1700000000000003
     = Return alice_token
  /\ @me reference_platform 1700000001000000 alice_token (Some (alice_db true))
     = Raise (HTTPException 401 "Invalid token").
Proof.
  assert (Hlt : timegm 1700000000000003 < timegm 1700000001000000) by reflexivity.
  split; [exact Hlt |].
  destruct (@me_rejects_token_of_an_earlier_second reference_platform ref_jws_round_trip
              "a@x.com" 1700000000000003 1700000001000000 (Some (alice_db true)) Hlt)
    as (tok & Htok & _ & Hme).
  assert (Heq : tok = alice_token).
  { assert (Hc : @create_access_token reference_platform {["sub" := VStr "a@x.com"]}
                   1700000000000003 = Return alice_token) by (vm_compute; reflexivity).
    rewrite Hc in Htok. now injection Htok. }
  subst tok. split; assumption.
Defined.

(** C2: the claim set of a token has "exp" where the specification
    expects "iat". *)
Lemma create_access_token_claims_counterexample :
  @create_access_token reference_platform {["sub" := VStr "a@x.com"]} 1700000000000003
  = Return (@jws_sign reference_platform
              (<["exp" := VInt 1700000000]> {["sub" := VStr "a@x.com"]})
              "dev-secret-key-change-me")
  /\ (<["exp" := VInt 1700000000]> {["sub" := VStr "a@x.com"]} : dict) !! "iat" = None
  /\ (<["exp" := VInt 1700000000]> {["sub" := VStr "a@x.com"]} : dict) !! "exp"
     = Some (VInt 1700000000)
  /\ (<["exp" := VInt 1700000000]> {["sub" := VStr "a@x.com"]} : dict)
     <> <["iat" := VInt 1700000000]> {["sub" := VStr "a@x.com"]}.
Proof.
  split; [vm_compute; reflexivity |].
  split; [reflexivity |]. split; [reflexivity |].
  intros Heq. apply (f_equal (fun m : dict => m !! "iat")) in Heq.
  vm_compute in Heq. discriminate.
Qed.

(** C3: the stored user has no "password_hash". *)
Lemma login_with_malformed_hash_is_internal_error_witness :
  @verify_password reference_platform "pw123" (VStr "")
  = Raise (ValueError "no hash specified")
  /\ @login reference_platform 1700000000000004 alice_login (Some hashless_db)
     = Raise (ValueError "no hash specified")
  /\ http_status (@login reference_platform 1700000000000004 alice_login (Some hashless_db))
     = 500.
Proof.
  destruct (@login_with_malformed_hash_is_internal_error reference_platform
              1700000000000004 alice_login hashless_db hashless_doc ""
              ltac:(vm_compute; reflexivity) ltac:(vm_compute; reflexivity)
              ltac:(vm_compute; reflexivity))
    as (why & Hv & Hl & Hs & _).
  assert (Hw : why = "no hash specified").
  { assert (Hc : @verify_password reference_platform "pw123" (VStr "")
                 = Raise (ValueError "no hash specified")) by reflexivity.
    change (LoginRequest.password alice_login) with "pw123" in Hv.
    rewrite Hc in Hv. now injection Hv. }
  subst why. repeat split; assumption.
Defined.



(** C6: the profile of [alice]. *)
Lemma me_returns_projection_witness :
  @me reference_platform 1700000000500000 alice_token (Some (alice_db true))
  = Return alice_profile
  /\ ProfileResponse.dump alice_profile !! "password_hash" = None
  /\ dom (ProfileResponse.dump alice_profile)
     = ({["id"; "email"; "nickname"; "avatar_url"; "roles"]} : gset string).
Proof.
  assert (Hme : @me reference_platform 1700000000500000 alice_token (Some (alice_db true))
                = Return alice_profile) by (vm_compute; reflexivity).
  destruct (@me_returns_projection reference_platform _ _ _ _ Hme)
    as (d & doc & e & _ & _ & _ & _ & _ & _ & _ & _ & _ & Hdom & Hnone).
  split; [exact Hme |]. split; assumption.
Defined.

(** C7: what the registration of [alice] stores. *)
Lemma register_writes_user_doc_witness :
  @register reference_platform alice_env alice (empty_db true)
  = (Some (alice_db true),
     Return {| TokenResponse.access_token := alice_token;
               TokenResponse.token_type := "bearer" |})
  /\ @hash_password reference_platform (reg_salt alice_env) (RegisterRequest.password alice)
     = Return alice_hash
  /\ alice_doc !! "password_hash" = Some (VStr alice_hash)
  /\ alice_doc !! "roles" = Some (VList [VStr "player"]).
Proof.
  destruct (@register_writes_user_doc reference_platform alice_env alice
              (empty_db true) (Some (alice_db true))
              {| TokenResponse.access_token := alice_token;
                 TokenResponse.token_type := "bearer" |}
              (register_alice true))
    as (d & h & doc & _ & Hh & _).
  split; [apply register_alice |].
  split; [vm_compute; reflexivity |].
  split; reflexivity.
Defined.

(** C7: the stored document has no "is_active" field. *)
Lemma register_writes_no_is_active_counterexample :
  fst (@register reference_platform alice_env alice (empty_db true))
  = Some (alice_db true)
  /\ playeruser (alice_db true) = [alice_doc]
  /\ alice_doc !! "is_active" = None
  /\ alice_doc !! "roles" = Some (VList [VStr "player"]).
Proof.
  split; [now rewrite register_alice |].
  repeat split; reflexivity.
Qed.








(** A token decodes within the second of its issuance. *)
Lemma jwt_decode_same_second_witness :
  timegm 1700000000999999 <= timegm 1700000000000003
  /\ exists (tok : @token reference_platform) (claims : dict),
       @create_access_token reference_platform {["sub" := VStr "a@x.com"]} 1700000000000003
       = Return tok
       /\ @jwt_decode reference_platform tok (@SECRET_KEY reference_platform)
            1700000000999999 = Return claims
       /\ claims !! "sub" = Some (VStr "a@x.com").
Proof.
  assert (Hle : timegm 1700000000999999 <= timegm 1700000000000003) by discriminate.
  split; [exact Hle |].
  exact (@jwt_decode_same_second reference_platform ref_jws_round_trip
           "a@x.com" 1700000000000003 1700000000999999 Hle).
Defined.

(** A stored hash that bcrypt does not identify. *)
Lemma verify_password_malformed_raises_witness :
  wellformed_hash "md5:0123" = false
  /\ exists why : string,
       @verify_password reference_platform "pw123" (VStr "md5:0123")
       = Raise (ValueError why).
Proof.
  assert (Hbad : wellformed_hash "md5:0123" = false) by reflexivity.
  split; [exact Hbad |].
  exact (@verify_password_malformed_raises reference_platform "pw123" "md5:0123" Hbad).
Defined.


(** ** The further properties on the reference platform *)

(** A caller's own "exp" is overwritten. *)
Lemma create_access_token_serializable_witness :
  claims_with_exp !! "exp" = Some (VInt 1)
  /\ @create_access_token reference_platform claims_with_exp 1700000000000003
     = Return alice_token.
Proof.
  split; [reflexivity |].
  rewrite (@create_access_token_serializable reference_platform claims_with_exp
             1700000000000003).
  - vm_compute. reflexivity.
  - apply map_Forall_insert_2; [reflexivity |].
    apply map_Forall_singleton. reflexivity.
Defined.

Lemma create_access_token_not_serializable_witness :
  @create_access_token reference_platform claims_with_datetime 1700000000000003
  = Raise (TypeError "Object is not JSON serializable").
Proof.
  exact (@create_access_token_not_serializable reference_platform claims_with_datetime
           1700000000000003 "created_at" (VDatetime 1700000000000001)
           ltac:(reflexivity) ltac:(reflexivity)
           ltac:(discriminate) ltac:(discriminate) ltac:(discriminate)).
Defined.

Lemma register_then_lookup_witness :
  exists doc : dict,
    get_user_by_email (Some (alice_db true)) (VStr (RegisterRequest.email alice))
    = Return (Some doc)
    /\ doc !! "_id" = Some (VObjectId (reg_object_id alice_env))
    /\ doc !! "email" = Some (VStr (RegisterRequest.email alice))
    /\ doc !! "nickname" = Some (VStr (RegisterRequest.nickname alice)).
Proof.
  exact (@register_then_lookup reference_platform alice_env alice (empty_db true)
           (Some (alice_db true)) _ (register_alice true)).
Defined.

(** Registering b@x.com does not change the lookup of a@x.com. *)
Lemma register_keeps_other_lookups_witness :
  get_user_by_email
    (fst (@register reference_platform alice_again_env short_nickname
            (Some (alice_db true))))
    (VStr "a@x.com")
  = get_user_by_email (Some (alice_db true)) (VStr "a@x.com").
Proof.
  apply (@register_keeps_other_lookups reference_platform alice_again_env short_nickname
           (Some (alice_db true)) _ _ "a@x.com" (surjective_pairing _)).
  discriminate.
Defined.



(** A password with a NUL byte. *)
Lemma unaccepted_password_raises_witness :
  secret_accepted (String NUL "pw123") = false
  /\ (exists why,
        @hash_password reference_platform "abcdefghijklmnopqrstuu" (String NUL "pw123")
        = Raise (ValueError why))
  /\ (forall h : string,
        exists why,
          @verify_password reference_platform (String NUL "pw123") (VStr h)
          = Raise (ValueError why)).
Proof.
  assert (Hpw : secret_accepted (String NUL "pw123") = false) by reflexivity.
  split; [exact Hpw |].
  exact (@unaccepted_password_raises reference_platform
           "abcdefghijklmnopqrstuu" (String NUL "pw123") Hpw).
Defined.

Lemma login_alice :
  @login reference_platform 1700000000000004 alice_login (Some (alice_db true))
  = Return {| TokenResponse.access_token := alice_token;
              TokenResponse.token_type := "bearer" |}.
Proof. vm_compute. reflexivity. Qed.

Lemma login_token_requires_verified_password_witness :
  exists (d : database) (doc : dict),
    Some (alice_db true) = Some d
    /\ find_one (playeruser d) (VStr (LoginRequest.email alice_login)) = Some doc
    /\ @verify_password reference_platform (LoginRequest.password alice_login)
         (dict_get_default doc "password_hash" (VStr "")) = Return true
    /\ {| TokenResponse.access_token := alice_token; TokenResponse.token_type := "bearer" |}
       = {| TokenResponse.access_token :=
              @jws_sign reference_platform
                (<["exp" := VInt (timegm 1700000000000004)]>
                   {["sub" := VStr (LoginRequest.email alice_login)]})
                (@SECRET_KEY reference_platform);
            TokenResponse.token_type := "bearer" |}.
Proof.
  exact (@login_token_requires_verified_password reference_platform
           1700000000000004 alice_login (Some (alice_db true)) _ login_alice).
Defined.

Lemma login_with_null_hash_is_unauthorized_witness :
  null_hash_doc !! "password_hash" = Some VNone
  /\ @login reference_platform 1700000000000004 alice_login (Some null_hash_db)
     = Raise (HTTPException 401 "Неверные данные для входа").
Proof.
  split; [reflexivity |].
  exact (@login_with_null_hash_is_unauthorized reference_platform
           1700000000000004 alice_login null_hash_db null_hash_doc
           ltac:(reflexivity) ltac:(reflexivity)).
Defined.

Lemma me_alice :
  @me reference_platform 1700000000500000 alice_token (Some (alice_db true))
  = Return alice_profile.
Proof. vm_compute. reflexivity. Qed.

Lemma jwt_decode_alice_token :
  @jwt_decode reference_platform alice_token (@SECRET_KEY reference_platform)
    1700000000500000
  = Return (<["exp" := VInt 1700000000]> {["sub" := VStr "a@x.com"]}).
Proof. vm_compute. reflexivity. Qed.

Lemma me_returns_profile_of_subject_witness :
  exists (claims : dict) (e : string) (d : database) (doc : dict),
    @jws_verify reference_platform alice_token (@SECRET_KEY reference_platform)
    = Some claims
    /\ claims !! "sub" = Some (VStr e)
    /\ String.eqb e "" = false
    /\ (forall exp : Z,
          claims !! "exp" = Some (VInt exp) -> timegm 1700000000500000 <= exp)
    /\ Some (alice_db true) = Some d
    /\ find_one (playeruser d) (VStr e) = Some doc
    /\ field_matches (doc !! "email") (VStr e) = true
    /\ @user_to_profile reference_platform doc = Return alice_profile.
Proof.
  exact (@me_returns_profile_of_subject reference_platform 1700000000500000
           alice_token (Some (alice_db true)) alice_profile me_alice).
Defined.

(** The token of [alice] on a collection that does not hold her. *)
Lemma me_unknown_user_is_not_found_witness :
  @me reference_platform 1700000000500000 alice_token
    (Some {| playeruser := []; unique_email := true |})
  = Raise (HTTPException 404 "Пользователь не найден")
  /\ http_status
       (@me reference_platform 1700000000500000 alice_token
          (Some {| playeruser := []; unique_email := true |})) = 404.
Proof.
  exact (@me_unknown_user_is_not_found reference_platform 1700000000500000
           alice_token _ "a@x.com" {| playeruser := []; unique_email := true |}
           jwt_decode_alice_token ltac:(reflexivity) ltac:(reflexivity)
           ltac:(reflexivity)).
Defined.

Lemma me_document_without_nickname_witness :
  nameless_doc !! "nickname" = None
  /\ @me reference_platform 1700000000500000 alice_token (Some nameless_db)
     = Raise (ValidationError "ProfileResponse")
  /\ http_status (@me reference_platform 1700000000500000 alice_token (Some nameless_db))
     = 500.
Proof.
  split; [reflexivity |].
  exact (@me_document_without_nickname reference_platform 1700000000500000
           alice_token _ "a@x.com" nameless_db nameless_doc
           jwt_decode_alice_token ltac:(reflexivity) ltac:(reflexivity)
           ltac:(reflexivity) ltac:(reflexivity)).
Defined.

(** A document with neither "roles" nor "avatar_url". *)
Lemma user_to_profile_defaults_witness :
  hashless_doc !! "roles" = None
  /\ @user_to_profile reference_platform hashless_doc
     = Return {| ProfileResponse.id :=
                   @py_str reference_platform (dict_get hashless_doc "_id");
                 ProfileResponse.email := "a@x.com";
                 ProfileResponse.nickname := "Alice";
                 ProfileResponse.avatar_url := None;
                 ProfileResponse.roles := ["player"] |}.
Proof.
  split; [reflexivity |].
  exact (@user_to_profile_defaults reference_platform hashless_doc
           "a@x.com" "a@x.com" "Alice"
           ltac:(reflexivity) ltac:(reflexivity) ltac:(reflexivity)
           ltac:(reflexivity) ltac:(reflexivity)).
Defined.

(** The document of [alice] with "roles" set to null. *)
Lemma user_to_profile_roles_not_a_list_witness :
  null_roles_doc !! "roles" = Some VNone
  /\ @user_to_profile reference_platform null_roles_doc
     = Raise (ValidationError "ProfileResponse").
Proof.
  split; [reflexivity |].
  exact (@user_to_profile_roles_not_a_list reference_platform null_roles_doc VNone
           ltac:(reflexivity) ltac:(reflexivity)).
Defined.

Lemma handlers_without_database_witness :
  @register reference_platform alice_env alice None
  = (None, Raise (HTTPException 500 "Database not configured"))
  /\ @login reference_platform 1700000000500000 alice_login None
     = Raise (HTTPException 500 "Database not configured")
  /\ @me reference_platform 1700000000500000 alice_token None
     = Raise (HTTPException 500 "Database not configured")
  /\ @me reference_platform 1700000000500000 forged_token None
     = Raise (HTTPException 401 "Invalid token").
Proof.
  exact (@handlers_without_database reference_platform alice_env alice
           1700000000500000 alice_login alice_token forged_token _ "a@x.com"
           jwt_decode_alice_token ltac:(reflexivity) ltac:(reflexivity)
           ltac:(reflexivity)).
Defined.

(** A listing that raises with a message of 60 characters of two bytes
    each: the excerpt is its first 50 characters, 100 bytes. *)
Lemma test_database_listing_error_witness :
  utf8_length sixty_e_acute = 60%nat
  /\ utf8_take 50 sixty_e_acute = fifty_e_acute
  /\ String.length fifty_e_acute = 100%nat
  /\ exists excerpt : string,
       test_database (Some failing_listing) (Some "mongodb://localhost") None !! "database"
       = Some (VStr ("⚠️  Connected but Error: " ++ excerpt))
       /\ excerpt = utf8_take 50 sixty_e_acute
       /\ (utf8_length excerpt <= 50)%nat
       /\ test_database (Some failing_listing) (Some "mongodb://localhost") None
            !! "collections" = Some (VList []).
Proof.
  split; [reflexivity |]. split; [reflexivity |]. split; [reflexivity |].
  exact (test_database_listing_error failing_listing sixty_e_acute
           (Some "mongodb://localhost") None
           ltac:(discriminate) ltac:(reflexivity)).
Defined.
